(** * Graph-bot: the upload gateway, the React client state and the quality gate

    A shallow embedding of
    - [server/index.js]: the Express gateway in front of the Python
      graph-generation service (multer upload, validation, the single
      downstream call, cleanup of the temporary file, error mapping);
    - the client: the [App] component's state handlers and
      [QueryInput.tsx] ([generateSmartSuggestions], [handleSubmit]);
    - the quality gate of the engine, which lives in the Python service. *)

From Stdlib Require Import ZArith QArith Ascii String List Bool Lia.
From stdpp Require Import base decidable numbers list strings gmap.

Local Open Scope string_scope.
Local Open Scope Z_scope.

#[local] Set Warnings "-register-all".

(** ** JSON values and JavaScript truthiness *)

Module Json.

(** A parsed body. Numbers are the integers, and an object holds each of
    its keys once. *)
Inductive value : Type :=
| JNull
| JBool (b : bool)
| JNum (n : Z)
| JStr (s : string)
| JArr (items : list value)
| JObj (fields : list (string * value)).

(** [o[k]] on a parsed body: [None] stands for [undefined]. *)
Fixpoint assoc (k : string) (fields : list (string * value)) : option value :=
  match fields with
  | [] => None
  | (k', v) :: rest => if String.eqb k k' then Some v else assoc k rest
  end.

Definition get (k : string) (v : value) : option value :=
  match v with
  | JObj fields => assoc k fields
  | _ => None
  end.

(** ToBoolean: [undefined], [null], [false], [0] and [''] are falsy;
    arrays and objects are always truthy. *)
Definition truthy (o : option value) : bool :=
  match o with
  | None => false
  | Some JNull => false
  | Some (JBool b) => b
  | Some (JNum n) => negb (n =? 0)
  | Some (JStr s) => negb (String.eqb s "")
  | Some (JArr _) => true
  | Some (JObj _) => true
  end.

(** The [{ error: msg }] literal the gateway sends. *)
Definition error_obj (msg : string) : value := JObj [("error", JStr msg)].

End Json.

(** ** Strings: [toLowerCase] and Node's [path.extname] *)

Definition lower_ascii (c : ascii) : ascii :=
  let n := N_of_ascii c in
  if ((65 <=? n) && (n <=? 90))%N then ascii_of_N (n + 32) else c.

Fixpoint toLowerCase (s : string) : string :=
  match s with
  | EmptyString => EmptyString
  | String c rest => String (lower_ascii c) (toLowerCase rest)
  end.

(** [a || b] on strings coming from the environment: [undefined] and the
    empty string are falsy. *)
Definition str_or (a : option string) (b : string) : string :=
  match a with
  | Some s => if String.eqb s "" then b else s
  | None => b
  end.

(** [!v] for a form field that is a string or missing. *)
Definition falsy_str (a : option string) : bool :=
  match a with
  | Some s => String.eqb s ""
  | None => true
  end.

Module NodePath.

(** The loop state of Node's posix [path.extname]. *)
Record ext_state := {
  startDot : Z;
  startPart : Z;
  endIdx : Z;
  matchedSlash : bool;
  preDotState : Z;
  stopped : bool
}.

Definition ext_init : ext_state :=
  {| startDot := -1; startPart := 0; endIdx := -1;
     matchedSlash := true; preDotState := 0; stopped := false |}.

(** One iteration of the backwards loop at index [i] over character [c]. *)
Definition ext_step (i : Z) (c : ascii) (s : ext_state) : ext_state :=
  if stopped s then s
  else if Ascii.eqb c "/" then
    if negb (matchedSlash s)
    then {| startDot := startDot s; startPart := i + 1; endIdx := endIdx s;
            matchedSlash := matchedSlash s; preDotState := preDotState s;
            stopped := true |}
    else s
  else
    let s1 :=
      if endIdx s =? -1
      then {| startDot := startDot s; startPart := startPart s; endIdx := i + 1;
              matchedSlash := false; preDotState := preDotState s;
              stopped := false |}
      else s in
    if Ascii.eqb c "." then
      if startDot s1 =? -1
      then {| startDot := i; startPart := startPart s1; endIdx := endIdx s1;
              matchedSlash := matchedSlash s1; preDotState := preDotState s1;
              stopped := false |}
      else if negb (preDotState s1 =? 1)
      then {| startDot := startDot s1; startPart := startPart s1; endIdx := endIdx s1;
              matchedSlash := matchedSlash s1; preDotState := 1;
              stopped := false |}
      else s1
    else if negb (startDot s1 =? -1)
    then {| startDot := startDot s1; startPart := startPart s1; endIdx := endIdx s1;
            matchedSlash := matchedSlash s1; preDotState := -1;
            stopped := false |}
    else s1.

(** Runs the loop over the characters in reverse, [i] counting down. *)
Fixpoint ext_loop (rev_chars : list ascii) (i : Z) (s : ext_state) : ext_state :=
  match rev_chars with
  | [] => s
  | c :: rest => ext_loop rest (i - 1) (ext_step i c s)
  end.

Definition extname (path : string) : string :=
  let chars := list_ascii_of_string path in
  let s := ext_loop (rev chars) (Z.of_nat (List.length chars) - 1) ext_init in
  if (startDot s =? -1) || (endIdx s =? -1) || (preDotState s =? 0)
     || ((preDotState s =? 1) && (startDot s =? endIdx s - 1)
         && (startDot s =? startPart s + 1))
  then ""
  else String.substring (Z.to_nat (startDot s))
                        (Z.to_nat (endIdx s - startDot s)) path.

End NodePath.

(** ** The gateway: [server/index.js] *)

Module Gateway.

(** A file part of the multipart request as busboy reports it to multer:
    [originalname] is the base name of the file name that was sent (empty
    when none was, or when that name is [.] or [..]), [mimetype] the type
    of the part's Content-Type header in lower case and without its
    parameters ([text/plain] when the part has no such header), [size]
    the number of bytes of its content. *)
Record FilePart := {
  fieldname : string;
  originalname : string;
  mimetype : string;
  size : Z
}.

(** The multipart request as busboy reports it: at most one file part and
    the [query] text field ([None] when the field is absent). multer fails
    a request that goes over its limits on fields, one of which is 1 MB
    for the value of a field; the requests here stay within them. *)
Record Request := {
  req_part : option FilePart;
  req_query : option string
}.

(** The file part multer acts on: it lets a part without a file name pass
    by ([if (!filename) return fileStream.resume()]), so for multer such a
    request carries no file. *)
Definition req_file (req : Request) : option FilePart :=
  match req_part req with
  | Some file => if String.eqb (originalname file) "" then None else Some file
  | None => None
  end.

(** [req.file] as multer's disk storage leaves it. *)
Record StoredFile := {
  sf_path : string;
  sf_originalname : string;
  sf_mimetype : string;
  sf_size : Z
}.

(** A JavaScript [Error]: [isMulter] is [error instanceof multer.MulterError]. *)
Record JsError := {
  isMulter : bool;
  code : string;
  message : string
}.

Definition plainError (msg : string) : JsError :=
  {| isMulter := false; code := ""; message := msg |}.

Definition multerError (c msg : string) : JsError :=
  {| isMulter := true; code := c; message := msg |}.

(** The error [axios.post] rejects with: [response] is set when the
    service answered with a status outside 2xx; without an answer only
    [code] tells what happened ([ECONNREFUSED], [ECONNABORTED] for an
    expired timeout, ...). *)
Record AxiosError := {
  ax_message : string;
  ax_code : option string;
  ax_response : option (Z * Json.value)      (* status and data *)
}.

(** What [await axios.post(...)] does: it resolves on a 2xx answer and
    rejects otherwise. *)
Inductive AxiosOutcome :=
| AxResolved (status : Z) (data : Json.value)
| AxRejected (httpError : AxiosError).

(** The error object as [console.error] prints it. *)
Definition error_json (e : AxiosError) : Json.value :=
  Json.JObj [("message", Json.JStr (ax_message e));
             ("code", match ax_code e with
                      | Some c => Json.JStr c
                      | None => Json.JNull
                      end)].

(** [httpError.code === c] *)
Definition code_is (e : AxiosError) (c : string) : bool :=
  match ax_code e with
  | Some c' => String.eqb c' c
  | None => false
  end.

Record AxiosConfig := {
  timeout : Z;                      (* milliseconds *)
  maxContentLength : option Z;      (* [None] is [Infinity] *)
  maxBodyLength : option Z
}.

Record FormData := {
  fd_file : string;                 (* path handed to [fs.createReadStream] *)
  fd_filename : string;
  fd_contentType : string;
  fd_query : string;
  fd_session_id : string
}.

Inductive Body :=
| BJson (v : Json.value)
| BText (s : string).

(** Observable effects, in the order they happen. [EvUnlink] is the call
    of [fs.unlink]; [EvRemoved] is the moment the file leaves the
    directory. *)
Inductive Event :=
| EvWrite (path : string)
| EvUnlink (path : string)
| EvRemoved (path : string)
| EvLog (args : list Json.value)
| EvPost (url : string) (form : FormData) (cfg : AxiosConfig)
| EvSend (status : Z) (body : Body).

(** Everything a request cannot control. *)
Record Env := {
  rate_limited : bool;                    (* the limiter's verdict for this IP *)
  uuidv4 : nat -> string;                 (* the k-th identifier drawn *)
  PYTHON_SERVICE_URL : option string;     (* [process.env.PYTHON_SERVICE_URL] *)
  python : nat -> AxiosOutcome;           (* outcome of the k-th downstream call *)
  unlink_early : bool                     (* the thread pool runs an unlink before
                                             the caller's next statement *)
}.

(** The uploads directory (a set of paths), the identifiers drawn so far
    and the trace. *)
Record World := {
  uploads : gset string;
  uuids_drawn : nat;
  trace : list Event
}.

Definition init_world (fs0 : gset string) : World :=
  {| uploads := fs0; uuids_drawn := 0; trace := [] |}.

(** *** A reader/state monad for the handlers *)

Definition M (A : Type) : Type := Env -> World -> A * World.

Definition ret {A} (a : A) : M A := fun _ w => (a, w).

Definition bind {A B} (m : M A) (k : A -> M B) : M B :=
  fun env w => let '(a, w') := m env w in k a env w'.

Notation "'let*' x := m 'in' k" := (bind m (fun x => k))
  (at level 10, x name, m at level 100, k at level 200).
Notation "m >> k" := (bind m (fun _ => k))
  (at level 100, k at level 200, right associativity).

Definition ask {A} (f : Env -> A) : M A := fun env w => (f env, w).

Definition emit (e : Event) : M unit :=
  fun _ w => (tt, {| uploads := uploads w; uuids_drawn := uuids_drawn w;
                     trace := trace w ++ [e] |}).

(** [console.log(...args)] and [console.error(...args)] *)
Definition console (args : list Json.value) : M unit := emit (EvLog args).

(** The double-quote character of the log lines. *)
Definition dq : string := String (ascii_of_nat 34) EmptyString.

Definition draw_uuid : M string :=
  fun env w => (uuidv4 env (uuids_drawn w),
                {| uploads := uploads w; uuids_drawn := S (uuids_drawn w);
                   trace := trace w |}).

(** Disk storage writes (or overwrites) the file. *)
Definition fs_write (p : string) : M unit :=
  fun _ w => (tt, {| uploads := {[ p ]} ∪ uploads w; uuids_drawn := uuids_drawn w;
                     trace := trace w ++ [EvWrite p] |}).

(** An [fs.unlink(p, cb)] between its call and its callback: still
    queued, or already run by the thread pool with the error it ended in. *)
Inductive Unlinking :=
| Queued
| Ran (err : option string).

(** The thread pool runs an unlink: the path leaves the directory, or
    there is no such file. *)
Definition unlink_run (p : string) : M (option string) :=
  fun _ w =>
    if decide (p ∈ uploads w)
    then (None, {| uploads := uploads w ∖ {[ p ]}; uuids_drawn := uuids_drawn w;
                   trace := trace w ++ [EvRemoved p] |})
    else (Some "ENOENT", w).

(** [fs.unlink(p, cb)]: the call queues the operation and returns; the
    thread pool may run it before the caller's next statement or only
    later. *)
Definition fs_unlink (p : string) : M Unlinking :=
  emit (EvUnlink p) >>
  let* early := ask unlink_early in
  if early
  then (let* err := unlink_run p in ret (Ran err))
  else ret Queued.

(** A later turn of the event loop, after the code that called
    [fs.unlink] has run to its end: the operation has run by now, and [cb]
    is called with its result. *)
Definition unlink_done (p : string) (u : Unlinking) (cb : option string -> M unit)
  : M unit :=
  match u with
  | Ran err => cb err
  | Queued => let* err := unlink_run p in cb err
  end.

Definition is_post (e : Event) : bool :=
  match e with EvPost _ _ _ => true | _ => false end.

Definition is_send (e : Event) : bool :=
  match e with EvSend _ _ => true | _ => false end.

(** The downstream calls and the responses of a trace, in order. *)
Definition posts (tr : list Event) : list Event := List.filter is_post tr.

Definition responses (tr : list Event) : list (Z * Body) :=
  flat_map (fun e => match e with EvSend s b => [(s, b)] | _ => [] end) tr.

(** The rejection of a call whose file stream cannot open its file. *)
Definition read_error (path : string) : AxiosError :=
  {| ax_message := "ENOENT: no such file or directory, open '" +:+ path +:+ "'";
     ax_code := Some "ENOENT";
     ax_response := None |}.

(** [await axios.post(url, form, cfg)]: the body streams the file of the
    form from disk ([fs.createReadStream]). When the file is there, the
    environment answers the k-th call with [python env k]; when it is
    not, the stream fails and the call is rejected without a response. *)
Definition axios_post (url : string) (form : FormData) (cfg : AxiosConfig)
  : M AxiosOutcome :=
  fun env w =>
    (if decide (fd_file form ∈ uploads w)
     then python env (length (posts (trace w)))
     else AxRejected (read_error (fd_file form)),
     {| uploads := uploads w; uuids_drawn := uuids_drawn w;
        trace := trace w ++ [EvPost url form cfg] |}).

(** [res.status(s).json(v)] *)
Definition res_json (status : Z) (v : Json.value) : M unit :=
  emit (EvSend status (BJson v)).

Definition res_send (status : Z) (s : string) : M unit :=
  emit (EvSend status (BText s)).

Definition run_M {A} (m : M A) (env : Env) (w : World) : World := snd (m env w).

Section Server.

(** [path.extname] of the platform the gateway runs on, and [__dirname]. *)
Variable extname : string -> string.
Variable dirname : string.

Definition uploadsDir : string := dirname +:+ "/uploads".

Definition includes (l : list string) (s : string) : bool :=
  existsb (String.eqb s) l.

Definition allowedMimes : list string :=
  [ "text/csv";
    "application/vnd.ms-excel";
    "application/vnd.openxmlformats-officedocument.spreadsheetml.sheet" ].

Definition allowedExtensions : list string := [ ".csv"; ".xls"; ".xlsx" ].

(** [fileFilter]: [inr true] is [cb(null, true)], [inl e] is [cb(e, false)]. *)
Definition fileFilter (file : FilePart) : JsError + bool :=
  let fileExtension := toLowerCase (extname (originalname file)) in
  if includes allowedMimes (mimetype file)
     && includes allowedExtensions fileExtension
  then inr true
  else inl (plainError "Only CSV and Excel files are allowed!").

(** [limits.fileSize] *)
Definition fileSizeLimit : Z := 10 * 1024 * 1024.

(** [storage.filename] *)
Definition storage_filename (file : FilePart) : M string :=
  let* uniqueId := draw_uuid in
  let extension := extname (originalname file) in
  ret (uniqueId +:+ extension).

(** [upload.single(field)]: multer lets a part without a file name pass
    by, refuses a file under another field, asks [fileFilter], and streams
    the accepted file into [uploadsDir]. busboy cuts the stream at
    [limits.fileSize] bytes and reports the limit as hit once that many
    bytes have come in, so a file of [limits.fileSize] bytes or more fails
    with [LIMIT_FILE_SIZE]; multer then unlinks what it wrote and waits for
    that before it passes the error on. *)
Definition upload_single (field : string) (req : Request)
  : M (JsError + option StoredFile) :=
  match req_part req with
  | None => ret (inr None)
  | Some file =>
    if String.eqb (originalname file) ""
    then ret (inr None)
    else if negb (String.eqb (fieldname file) field)
    then ret (inl (multerError "LIMIT_UNEXPECTED_FILE" "Unexpected field"))
    else
      match fileFilter file with
      | inl e => ret (inl e)
      | inr false => ret (inr None)
      | inr true =>
        let* name := storage_filename file in
        let p := uploadsDir +:+ "/" +:+ name in
        (fs_write p >>
         if fileSizeLimit <=? size file
         then (let* unlinking := fs_unlink p in
               (unlink_done p unlinking (fun _ => ret tt) >>
                ret (inl (multerError "LIMIT_FILE_SIZE" "File too large"))))
         else ret (inr (Some {| sf_path := p;
                                sf_originalname := originalname file;
                                sf_mimetype := mimetype file;
                                sf_size := size file |})))
      end
  end.

(** The options object of the downstream [axios.post]. *)
Definition axiosConfig : AxiosConfig :=
  {| timeout := 300000; maxContentLength := None; maxBodyLength := None |}.

(** The callback of the handler's two [fs.unlink] calls:
    [(err) => { if (err) console.error('Error deleting uploaded file:', err) }] *)
Definition unlink_callback (err : option string) : M unit :=
  match err with
  | Some e => console [Json.JStr "Error deleting uploaded file:"; Json.JStr e]
  | None => ret tt
  end.

(** The handler of [POST /api/generate-graph], after multer. The request
    headers of the downstream call are left out; nothing modelled inside
    the outer [try] throws, so its [catch] (500 "Internal server error")
    is never entered. Each branch calls [fs.unlink] and goes on to send
    the response; the callback of the unlink runs on a later turn of the
    event loop, after the branch has run to its end. *)
Definition generate_graph (file : option StoredFile) (body_query : option string)
  : M unit :=
  match file with
  | None => res_json 400 (Json.error_obj "No file uploaded")
  | Some f =>
    if falsy_str body_query
    then res_json 400 (Json.error_obj "No query provided")
    else
      let query := default "" body_query in
      let filePath := sf_path f in
      let* sessionId := draw_uuid in
      (console [Json.JStr ("Processing request " +:+ sessionId +:+ ": Query=" +:+ dq
                           +:+ query +:+ dq +:+ ", File=" +:+ dq
                           +:+ sf_originalname f +:+ dq)] >>
       (* Call Python service via HTTP *)
       let formData :=
         {| fd_file := filePath;
            fd_filename := sf_originalname f;
            fd_contentType := sf_mimetype f;
            fd_query := query;
            fd_session_id := sessionId |} in
       let* envUrl := ask PYTHON_SERVICE_URL in
       let pythonServiceUrl := str_or envUrl "http://localhost:8000" in
       (console [Json.JStr ("Calling Python service at " +:+ pythonServiceUrl
                            +:+ "/generate-graph")] >>
        let* outcome :=
          axios_post (pythonServiceUrl +:+ "/generate-graph") formData axiosConfig in
        match outcome with
        | AxResolved _ data =>
          (* Clean up uploaded file *)
          let* unlinking := fs_unlink filePath in
          (res_json 200 data >>
           unlink_done filePath unlinking unlink_callback)
        | AxRejected httpError =>
          (* Clean up uploaded file on error *)
          let* unlinking := fs_unlink filePath in
          (console [Json.JStr "Error calling Python service:";
                    Json.JStr (ax_message httpError)] >>
           match ax_response httpError with
           | Some (status, data) =>
             (* Python service returned an error response *)
             (console [Json.JStr "Python service error response:"; data] >>
              res_json status data)
           | None =>
             if code_is httpError "ECONNREFUSED"
             then (console [Json.JStr "Cannot connect to Python service"] >>
                   res_json 503 (Json.error_obj "Graph generation service unavailable"))
             else (console [Json.JStr "Request error:"; error_json httpError] >>
                   res_json 500 (Json.error_obj "Failed to start graph generation service"))
           end >>
           unlink_done filePath unlinking unlink_callback)
        end))
  end.

(** The error-handling middleware that multer's failures reach. *)
Definition error_middleware (error : JsError) : M unit :=
  if isMulter error && String.eqb (code error) "LIMIT_FILE_SIZE"
  then res_json 400 (Json.error_obj "File size too large. Maximum 10MB allowed.")
  else if String.eqb (message error) "Only CSV and Excel files are allowed!"
  then res_json 400 (Json.error_obj "Only CSV and Excel files are allowed!")
  else (console [Json.JStr "Unhandled error:"; Json.JStr (message error)] >>
        res_json 500 (Json.error_obj "Internal server error")).

Definition limiter_message : string :=
  "Too many requests from this IP, please try again later.".

(** The route: rate limiter, [upload.single('file')], then the handler
    or the error middleware. *)
Definition post_generate_graph (req : Request) : M unit :=
  let* limited := ask rate_limited in
  if limited then res_send 429 limiter_message
  else
    let* r := upload_single "file" req in
    match r with
    | inl e => error_middleware e
    | inr file => generate_graph file (req_query req)
    end.

(** One request against an uploads directory holding [fs0]. *)
Definition serve (env : Env) (fs0 : gset string) (req : Request) : World :=
  run_M (post_generate_graph req) env (init_world fs0).

(** [e] is issued while no response has been sent yet, and a response
    is sent after it. *)
Inductive before_response (e : Event) : list Event -> Prop :=
| br_here rest :
    existsb is_send rest = true -> before_response e (e :: rest)
| br_later e' rest :
    is_send e' = false -> before_response e rest -> before_response e (e' :: rest).

(** Every file the trace writes has left the directory before a response
    is sent. *)
Definition removed_before_response (tr : list Event) : Prop :=
  forall p, In (EvWrite p) tr -> before_response (EvRemoved p) tr.

(** Every downstream call of the trace carries a timeout of at most
    [limit] milliseconds ([0] would mean no timeout). *)
Definition timeouts_within (limit : Z) (tr : list Event) : Prop :=
  forall url form cfg, In (EvPost url form cfg) tr -> 0 < timeout cfg <= limit.

(** Where multer's disk storage puts the upload of a request. *)
Definition upload_path (env : Env) (file : FilePart) : string :=
  uploadsDir +:+ "/" +:+ (uuidv4 env 0 +:+ extname (originalname file)).

(** The form the handler posts downstream. *)
Definition form_of (env : Env) (file : FilePart) (q : option string) : FormData :=
  {| fd_file := upload_path env file;
     fd_filename := originalname file;
     fd_contentType := mimetype file;
     fd_query := default "" q;
     fd_session_id := uuidv4 env 1 |}.

Definition service_url (env : Env) : string :=
  str_or (PYTHON_SERVICE_URL env) "http://localhost:8000" +:+ "/generate-graph".

(** What the handler does once the downstream call has ended in [o],
    between its call of [fs.unlink] and the callback of that unlink. *)
Definition reply_events (o : AxiosOutcome) : list Event :=
  match o with
  | AxResolved _ data => [EvSend 200 (BJson data)]
  | AxRejected httpError =>
    EvLog [Json.JStr "Error calling Python service:"; Json.JStr (ax_message httpError)]
    :: match ax_response httpError with
       | Some (status, data) =>
         [EvLog [Json.JStr "Python service error response:"; data];
          EvSend status (BJson data)]
       | None =>
         if code_is httpError "ECONNREFUSED"
         then [EvLog [Json.JStr "Cannot connect to Python service"];
               EvSend 503 (BJson (Json.error_obj "Graph generation service unavailable"))]
         else [EvLog [Json.JStr "Request error:"; error_json httpError];
               EvSend 500 (BJson (Json.error_obj
                                    "Failed to start graph generation service"))]
       end
  end.

(** The two lines the handler logs before the downstream call. *)
Definition processing_line (env : Env) (file : FilePart) (q : option string) : Json.value :=
  Json.JStr ("Processing request " +:+ uuidv4 env 1 +:+ ": Query=" +:+ dq
             +:+ default "" q +:+ dq +:+ ", File=" +:+ dq
             +:+ originalname file +:+ dq).

Definition calling_line (env : Env) : Json.value :=
  Json.JStr ("Calling Python service at "
             +:+ str_or (PYTHON_SERVICE_URL env) "http://localhost:8000"
             +:+ "/generate-graph").

(** The removal of the upload: right after the call of [fs.unlink] when
    the thread pool is early, after the response otherwise. *)
Definition removal_early (env : Env) (p : string) : list Event :=
  if unlink_early env then [EvRemoved p] else [].

Definition removal_late (env : Env) (p : string) : list Event :=
  if unlink_early env then [] else [EvRemoved p].

(** The seven ways through the route, each with the world it ends in. *)
Inductive route (env : Env) (fs0 : gset string) (req : Request) : World -> Prop :=
| route_limited :
    rate_limited env = true ->
    route env fs0 req
      {| uploads := fs0; uuids_drawn := 0;
         trace := [EvSend 429 (BText limiter_message)] |}
| route_no_file :
    rate_limited env = false ->
    req_file req = None ->
    route env fs0 req
      {| uploads := fs0; uuids_drawn := 0;
         trace := [EvSend 400 (BJson (Json.error_obj "No file uploaded"))] |}
| route_unexpected_field file :
    rate_limited env = false ->
    req_file req = Some file ->
    String.eqb (fieldname file) "file" = false ->
    route env fs0 req
      {| uploads := fs0; uuids_drawn := 0;
         trace := [EvLog [Json.JStr "Unhandled error:"; Json.JStr "Unexpected field"];
                   EvSend 500 (BJson (Json.error_obj "Internal server error"))] |}
| route_filtered file :
    rate_limited env = false ->
    req_file req = Some file ->
    String.eqb (fieldname file) "file" = true ->
    (includes allowedMimes (mimetype file) = false
     \/ includes allowedExtensions (toLowerCase (extname (originalname file))) = false) ->
    route env fs0 req
      {| uploads := fs0; uuids_drawn := 0;
         trace := [EvSend 400 (BJson (Json.error_obj
                                        "Only CSV and Excel files are allowed!"))] |}
| route_too_large file :
    rate_limited env = false ->
    req_file req = Some file ->
    String.eqb (fieldname file) "file" = true ->
    includes allowedMimes (mimetype file) = true ->
    includes allowedExtensions (toLowerCase (extname (originalname file))) = true ->
    fileSizeLimit <= size file ->
    route env fs0 req
      {| uploads := ({[ upload_path env file ]} ∪ fs0) ∖ {[ upload_path env file ]};
         uuids_drawn := 1;
         trace := [EvWrite (upload_path env file);
                   EvUnlink (upload_path env file);
                   EvRemoved (upload_path env file);
                   EvSend 400 (BJson (Json.error_obj
                                        "File size too large. Maximum 10MB allowed."))] |}
| route_no_query file :
    rate_limited env = false ->
    req_file req = Some file ->
    String.eqb (fieldname file) "file" = true ->
    includes allowedMimes (mimetype file) = true ->
    includes allowedExtensions (toLowerCase (extname (originalname file))) = true ->
    size file < fileSizeLimit ->
    falsy_str (req_query req) = true ->
    route env fs0 req
      {| uploads := {[ upload_path env file ]} ∪ fs0;
         uuids_drawn := 1;
         trace := [EvWrite (upload_path env file);
                   EvSend 400 (BJson (Json.error_obj "No query provided"))] |}
| route_downstream file :
    rate_limited env = false ->
    req_file req = Some file ->
    String.eqb (fieldname file) "file" = true ->
    includes allowedMimes (mimetype file) = true ->
    includes allowedExtensions (toLowerCase (extname (originalname file))) = true ->
    size file < fileSizeLimit ->
    falsy_str (req_query req) = false ->
    route env fs0 req
      {| uploads := ({[ upload_path env file ]} ∪ fs0) ∖ {[ upload_path env file ]};
         uuids_drawn := 2;
         trace := [EvWrite (upload_path env file);
                   EvLog [processing_line env file (req_query req)];
                   EvLog [calling_line env];
                   EvPost (service_url env) (form_of env file (req_query req)) axiosConfig;
                   EvUnlink (upload_path env file)]
                  ++ removal_early env (upload_path env file)
                  ++ reply_events (python env 0)
                  ++ removal_late env (upload_path env file) |}.

End Server.

End Gateway.

(** ** The client: [App] state and [QueryInput.tsx] *)

Module Client.

(** A browser [File]; [header] is the header row of its content, the
    column names of the uploaded data. *)
Record File := {
  file_name : string;
  file_size : Z;
  header : list string
}.

(** The [useState] cells of [App]. [graphResult] and [chatbotResponse]
    hold a response body or [null] ([Json.JNull]). *)
Record AppState := {
  selectedFile : option File;
  query : string;
  graphResult : Json.value;
  isLoading : bool;
  chatbotResponse : Json.value
}.

Definition initial : AppState :=
  {| selectedFile := None; query := ""; graphResult := Json.JNull;
     isLoading := false; chatbotResponse := Json.JNull |}.

(** The setters a handler calls are applied as one update. *)

Definition handleFileSelect (file : option File) (s : AppState) : AppState :=
  {| selectedFile := file; query := query s; graphResult := Json.JNull;
     isLoading := isLoading s; chatbotResponse := Json.JNull |}.

Definition handleQuerySubmit (queryText : string) (s : AppState) : AppState :=
  {| selectedFile := selectedFile s; query := queryText;
     graphResult := graphResult s; isLoading := isLoading s;
     chatbotResponse := chatbotResponse s |}.

Definition handleGraphGenerated (result : Json.value) (s : AppState) : AppState :=
  {| selectedFile := selectedFile s; query := query s; graphResult := result;
     isLoading := isLoading s; chatbotResponse := Json.JNull |}.

Definition handleLoadingChange (loading : bool) (s : AppState) : AppState :=
  {| selectedFile := selectedFile s; query := query s;
     graphResult := graphResult s; isLoading := loading;
     chatbotResponse := chatbotResponse s |}.

Definition handleChatbotResponse (response : Json.value) (s : AppState) : AppState :=
  {| selectedFile := selectedFile s; query := query s; graphResult := Json.JNull;
     isLoading := isLoading s; chatbotResponse := response |}.

Definition handleSuggestionClick (suggestion : string) (s : AppState) : AppState :=
  {| selectedFile := selectedFile s; query := suggestion;
     graphResult := graphResult s; isLoading := isLoading s;
     chatbotResponse := Json.JNull |}.

Definition resetForm (s : AppState) : AppState :=
  {| selectedFile := None; query := ""; graphResult := Json.JNull;
     isLoading := false; chatbotResponse := Json.JNull |}.

(** The callbacks [App] hands to its children. *)
Inductive Action :=
| FileSelect (file : option File)
| QuerySubmit (queryText : string)
| GraphGenerated (result : Json.value)
| LoadingChange (loading : bool)
| ChatbotResponse (response : Json.value)
| SuggestionClick (suggestion : string)
| ResetForm.

Definition step (s : AppState) (a : Action) : AppState :=
  match a with
  | FileSelect file => handleFileSelect file s
  | QuerySubmit q => handleQuerySubmit q s
  | GraphGenerated r => handleGraphGenerated r s
  | LoadingChange b => handleLoadingChange b s
  | ChatbotResponse r => handleChatbotResponse r s
  | SuggestionClick sg => handleSuggestionClick sg s
  | ResetForm => resetForm s
  end.

(** The states the component can be in. *)
Inductive reachable : AppState -> Prop :=
| reach_initial : reachable initial
| reach_step s a : reachable s -> reachable (step s a).

(** What the [axios.post] of the client ends in. *)
Inductive HttpResult :=
| HttpOk (data : Json.value)
| HttpFailed (errorMessage : string).

(** JavaScript's white space and line terminators, the characters
    [trim()] strips and a numeric string may be padded with. A string is
    held as the bytes of its UTF-8 form: the tab to the carriage return
    and the space take one byte, ... *)
Definition is_space (c : ascii) : bool :=
  let n := N_of_ascii c in
  ((n =? 32) || ((9 <=? n) && (n <=? 13)))%N.

(** ... U+00A0 takes two, ... *)
Definition white2 (c1 c2 : ascii) : bool :=
  ((N_of_ascii c1 =? 194) && (N_of_ascii c2 =? 160))%N.

(** ... and U+1680, U+2000 to U+200A, U+2028, U+2029, U+202F, U+205F,
    U+3000 and U+FEFF take three. *)
Definition white3 (c1 c2 c3 : ascii) : bool :=
  let a := N_of_ascii c1 in
  let b := N_of_ascii c2 in
  let c := N_of_ascii c3 in
  (((a =? 225) && (b =? 154) && (c =? 128))
   || ((a =? 226) && (b =? 128)
       && (((128 <=? c) && (c <=? 138)) || (c =? 168) || (c =? 169) || (c =? 175)))
   || ((a =? 226) && (b =? 129) && (c =? 159))
   || ((a =? 227) && (b =? 128) && (c =? 128))
   || ((a =? 239) && (b =? 187) && (c =? 191)))%N.

(** [s.trim()] is empty: only white space. *)
Fixpoint blank (s : string) : bool :=
  match s with
  | EmptyString => true
  | String c1 rest1 =>
    if is_space c1 then blank rest1
    else
      match rest1 with
      | EmptyString => false
      | String c2 rest2 =>
        if white2 c1 c2 then blank rest2
        else
          match rest2 with
          | EmptyString => false
          | String c3 rest3 => white3 c1 c2 c3 && blank rest3
          end
      end
  end.

(** [s] without its leading white space. *)
Fixpoint trim_start (s : string) : string :=
  match s with
  | EmptyString => s
  | String c1 rest1 =>
    if is_space c1 then trim_start rest1
    else
      match rest1 with
      | EmptyString => s
      | String c2 rest2 =>
        if white2 c1 c2 then trim_start rest2
        else
          match rest2 with
          | EmptyString => s
          | String c3 rest3 =>
            if white3 c1 c2 c3 then trim_start rest3 else s
          end
      end
  end.

(** The timeouts of the two client calls, in milliseconds. *)
Definition submitTimeout : Z := 60000.
Definition suggestionsTimeout : Z := 30000.

(** [handleSubmit]: the [App] callbacks it invokes, in order, given how
    the request ended. [hasOnChatbotResponse] tells whether the optional
    [onChatbotResponse] prop was passed. *)
Definition handleSubmit (currentQuery : string) (file : option File)
    (isSubmitting hasOnChatbotResponse : bool) (http : HttpResult)
  : list Action :=
  if blank currentQuery || negb (bool_decide (is_Some file)) || isSubmitting
  then []
  else
    [LoadingChange true; QuerySubmit currentQuery]
    ++ match http with
       | HttpOk data =>
         if Json.truthy (Json.get "is_chatbot_response" data)
         then (if hasOnChatbotResponse then [ChatbotResponse data] else [])
         else if Json.truthy (Json.get "success" data)
         then [GraphGenerated data]
         else []                       (* throws; the catch block shows the error *)
       | HttpFailed _ => []
       end
    ++ [LoadingChange false].

(** The body is a clarification for the client. *)
Definition is_chatbot_response (data : Json.value) : bool :=
  Json.truthy (Json.get "is_chatbot_response" data).

(** *** [v > 0]: ToNumber and the numeric strings *)

(** The value of a digit in base 2, 8, 10 or 16. *)
Definition digit_value (base : Z) (c : ascii) : option Z :=
  let n := Z.of_N (N_of_ascii c) in
  let d := if (48 <=? n) && (n <=? 57) then n - 48
           else if (97 <=? n) && (n <=? 102) then n - 87
           else if (65 <=? n) && (n <=? 70) then n - 55
           else 16 in
  if d <? base then Some d else None.

(** The longest run of digits [s] starts with: its value after [acc], the
    number of digits, and what follows them. *)
Fixpoint read_digits (base : Z) (s : string) (acc : Z) (count : nat)
  : Z * nat * string :=
  match s with
  | EmptyString => (acc, count, s)
  | String c rest =>
    match digit_value base c with
    | Some d => read_digits base rest (base * acc + d) (S count)
    | None => (acc, count, s)
    end
  end.

(** The double nearest to [m * 10 ^ e], for [m] not negative, is above
    zero: the least double above zero is [2 ^ -1074], and what is at most
    half of it rounds to zero. *)
Definition rounds_positive (m e : Z) : bool :=
  (0 <? m) && ((0 <=? e) || (10 ^ (- e) <? m * 2 ^ 1075)).

(** [s] is an ExponentPart, or nothing, and then white space only; with
    the exponent. *)
Definition exponent_part (s : string) : option Z :=
  match s with
  | String c rest =>
    if Ascii.eqb c "e" || Ascii.eqb c "E"
    then
      let '(negative, ds) :=
        match rest with
        | String sign rest' =>
          if Ascii.eqb sign "-" then (true, rest')
          else if Ascii.eqb sign "+" then (false, rest')
          else (false, rest)
        | EmptyString => (false, rest)
        end in
      let '(x, count, after) := read_digits 10 ds 0 0 in
      if (0 <? count)%nat && blank after
      then Some (if negative then - x else x)
      else None
    else if blank s then Some 0 else None
  | EmptyString => Some 0
  end.

(** [s] is a StrUnsignedDecimalLiteral and then white space only, and its
    number is above zero. *)
Definition unsigned_decimal_gt0 (s : string) : bool :=
  if String.prefix "Infinity" s
  then blank (String.substring 8 (String.length s - 8) s)
  else
    let '(whole, wholeCount, after) := read_digits 10 s 0 0 in
    match after with
    | String "." fraction =>
      let '(m, count, after') := read_digits 10 fraction whole wholeCount in
      if (0 <? count)%nat
      then
        match exponent_part after' with
        | Some x => rounds_positive m (x - Z.of_nat (count - wholeCount))
        | None => false
        end
      else false
    | _ =>
      if (0 <? wholeCount)%nat
      then
        match exponent_part after with
        | Some x => rounds_positive whole x
        | None => false
        end
      else false
    end.

(** [s] holds the digits of a NonDecimalIntegerLiteral after its prefix
    and then white space only, and its number is above zero. *)
Definition digits_gt0 (base : Z) (s : string) : bool :=
  let '(n, count, after) := read_digits base s 0 0 in
  (0 <? count)%nat && blank after && (0 <? n).

(** StringToNumber of [s] is above zero. The string is a numeric literal
    between white space: a decimal with an optional sign, or a binary,
    octal or hexadecimal integer without one; the empty literal is [0], a
    negative one is never above zero and anything else is [NaN]. *)
Definition string_gt0 (s : string) : bool :=
  match trim_start s with
  | EmptyString => false
  | String c rest =>
    if Ascii.eqb c "-" then false
    else if Ascii.eqb c "+" then unsigned_decimal_gt0 rest
    else if Ascii.eqb c "0" then
      match rest with
      | String p digits =>
        if Ascii.eqb p "x" || Ascii.eqb p "X" then digits_gt0 16 digits
        else if Ascii.eqb p "o" || Ascii.eqb p "O" then digits_gt0 8 digits
        else if Ascii.eqb p "b" || Ascii.eqb p "B" then digits_gt0 2 digits
        else unsigned_decimal_gt0 (String c rest)
      | EmptyString => false
      end
    else unsigned_decimal_gt0 (String c rest)
  end.

(** [v > 0] for a value of a parsed body. [null] counts as [0], [true] as
    [1] and a string as the number it spells. An array counts as the
    string of its entries joined by commas, in which [null] leaves
    nothing and an array its own such string: only an array of one entry
    can spell a number. An object's string spells none. *)
Fixpoint gt_zero (v : Json.value) : bool :=
  match v with
  | Json.JNull => false
  | Json.JBool b => b
  | Json.JNum n => 0 <? n
  | Json.JStr s => string_gt0 s
  | Json.JArr [entry] =>
    match entry with
    | Json.JNum n => 0 <? n
    | Json.JStr s => string_gt0 s
    | Json.JArr _ => gt_zero entry
    | _ => false
    end
  | Json.JArr _ => false
  | Json.JObj _ => false
  end.

(** [x.length > 0] for a value read off a parsed body: an array and a
    string have their length, an object has the field of that name if the
    body gave it one, and anything else has [undefined]. *)
Definition has_positive_length (v : Json.value) : bool :=
  match v with
  | Json.JArr items => (0 <? length items)%nat
  | Json.JStr s => (0 <? String.length s)%nat
  | Json.JObj fields =>
    match Json.assoc "length" fields with
    | Some len => gt_zero len
    | None => false
    end
  | _ => false
  end.

Definition fallbackSuggestions : Json.value :=
  Json.JArr [ Json.JStr "Show me a bar chart of the data";
              Json.JStr "Create a line chart showing trends";
              Json.JStr "Display a pie chart distribution";
              Json.JStr "Generate a scatter plot" ].

(** [generateSmartSuggestions]: the new value of [smartSuggestions]
    ([prev] when the function returns at once). *)
Definition generateSmartSuggestions (file : option File) (prev : Json.value)
    (http : HttpResult) : Json.value :=
  match file with
  | None => prev
  | Some _ =>
    match http with
    | HttpOk data =>
      match Json.get "suggestions" data with
      | Some sg =>
        if Json.truthy (Some sg) && has_positive_length sg
        then sg
        else fallbackSuggestions
      | None => fallbackSuggestions
      end
    | HttpFailed _ => fallbackSuggestions
    end
  end.

(** The buttons [smartSuggestions.map(...)] renders, one per entry of the
    array. A value that is no array has no [map]: the render throws and
    no button is listed. *)
Definition shown (smartSuggestions : Json.value) : list Json.value :=
  match smartSuggestions with
  | Json.JArr items => items
  | _ => []
  end.



(** [needle] occurs in [hay]. *)
Fixpoint contains (needle hay : string) : bool :=
  String.prefix needle hay
  || match hay with
     | EmptyString => false
     | String _ rest => contains needle rest
     end.

(** A shown suggestion names one of the columns. *)
Definition names_a_column (columns : list string) (suggestion : Json.value) : bool :=
  match suggestion with
  | Json.JStr s => existsb (fun c => contains c s) columns
  | _ => false
  end.

(** The result callbacks among the callbacks a submit invokes. *)
Definition is_result (a : Action) : bool :=
  match a with
  | GraphGenerated _ | ChatbotResponse _ => true
  | _ => false
  end.

Definition result_actions (acts : list Action) : list Action :=
  List.filter is_result acts.

Definition run_actions (s : AppState) (acts : list Action) : AppState :=
  fold_left step acts s.

(** The shown suggestions are three to five queries, each naming a column
    of the uploaded data. *)
Definition suggestions_from_columns (columns : list string)
    (suggestions : list Json.value) : Prop :=
  (3 <= length suggestions <= 5)%nat
  /\ Forall (fun sg => names_a_column columns sg = true) suggestions.

End Client.

(** ** The quality gate of the engine

    The engine runs in the Python service, which is not among the sources;
    its data model and [checkQuality] follow sections 3 and 4.2 of the
    specification. *)

Module Engine.

(** Modelled from the spec: the semantic types of section 3. *)
Inductive SemanticType :=
| numeric | categorical | temporal | boolean | text_free | unknown.

(** Modelled from the spec: a table is an ordered sequence of named
    columns of equal length. *)
Record Column := {
  col_name : string;
  col_type : SemanticType;
  cells : list (option string)          (* [None] is the null marker *)
}.

Definition Table := list Column.

(** Modelled from the spec: the per-column summary the profiler derives
    (the numeric range and the date format play no part in the gate). *)
Record ColumnProfile := {
  cp_name : string;
  cp_type : SemanticType;
  distinctCount : nat;
  nullCount : nat;
  nullRatio : Q
}.

(** Modelled from the spec: the issues of section 4.2; all but
    [TooManyMissing] are blocking. *)
Inductive QualityIssue :=
| EmptyTable
| AllColumnsConstant
| NoSuitableColumn
| TooManyMissing (column : string) (ratio : Q).

Definition is_blocking (i : QualityIssue) : bool :=
  match i with
  | TooManyMissing _ _ => false
  | _ => true
  end.

Definition rowCount (t : Table) : nat :=
  match t with
  | [] => 0
  | c :: _ => length (cells c)
  end.

Definition is_measure (p : ColumnProfile) : bool :=
  match cp_type p with
  | numeric | temporal => true
  | _ => false
  end.

Definition Qgtb (a b : Q) : bool := negb (Qle_bool a b).

Section QualityGate.

(** Configuration: the null-ratio threshold, and whether the chart
    family a query asks for needs a numeric or temporal column. *)
Variable missingThreshold : Q.
Variable familyNeedsMeasure : string -> bool.

(** Modelled from the spec: the Python service that holds the quality
    gate is not among the sources. The four rules of section 4.2, each
    evaluated on its own, in the order the spec lists them; [blocking]
    holds when some issue found is a blocking one. *)
Definition checkQuality (queryText : string) (t : Table)
    (profiles : list ColumnProfile) : list QualityIssue * bool :=
  let issues : list QualityIssue :=
    ((if (rowCount t =? 0)%nat then [EmptyTable] else [])
    ++ (if forallb (fun p => (distinctCount p =? 1)%nat) profiles
        then [AllColumnsConstant] else [])
    ++ (if negb (existsb is_measure profiles) && familyNeedsMeasure queryText
        then [NoSuitableColumn] else [])
    ++ flat_map (fun p => if Qgtb (nullRatio p) missingThreshold
                          then [TooManyMissing (cp_name p) (nullRatio p)]
                          else []) profiles)%list in
  (issues, existsb is_blocking issues).

End QualityGate.

Definition defaultMissingThreshold : Q := 1 # 2.

End Engine.

(** ** Sample requests and environments *)

Module Examples.
Import Gateway.

Definition uuids (k : nat) : string :=
  match k with
  | O => "3f2c9d1e"
  | _ => "9b1e07aa"
  end.

(** No rate limiting, default service URL, every downstream call ends in [o]. *)
Definition env_with (o : AxiosOutcome) : Env :=
  {| rate_limited := false; uuidv4 := uuids; PYTHON_SERVICE_URL := None;
     python := fun _ => o; unlink_early := false |}.

Definition chart_body : Json.value :=
  Json.JObj [("success", Json.JBool true); ("chart_type", Json.JStr "bar")].

Definition clarification_body : Json.value :=
  Json.JObj [("is_chatbot_response", Json.JBool true);
             ("message", Json.JStr "Which columns should I compare?")].

Definition csv_part : FilePart :=
  {| fieldname := "file"; originalname := "sales.CSV";
     mimetype := "text/csv"; size := 2048 |}.

Definition txt_part : FilePart :=
  {| fieldname := "file"; originalname := "notes.txt";
     mimetype := "text/csv"; size := 2048 |}.

Definition huge_part : FilePart :=
  {| fieldname := "file"; originalname := "sales.csv";
     mimetype := "text/csv"; size := 10 * 1024 * 1024 + 1 |}.

Definition bar_query : string := "Show me a bar chart comparing sales by region".

Definition request_of (part : FilePart) : Request :=
  {| req_part := Some part; req_query := Some bar_query |}.

Definition timeout_error : AxiosError :=
  {| ax_message := "timeout of 300000ms exceeded";
     ax_code := Some "ECONNABORTED"; ax_response := None |}.

Definition refused_error : AxiosError :=
  {| ax_message := "connect ECONNREFUSED 127.0.0.1:8000";
     ax_code := Some "ECONNREFUSED"; ax_response := None |}.

(** The service answers 422 with a clarification body. *)
Definition unprocessable_error : AxiosError :=
  {| ax_message := "Request failed with status code 422";
     ax_code := Some "ERR_BAD_REQUEST";
     ax_response := Some (422, clarification_body) |}.

Definition timed_out : AxiosOutcome := AxRejected timeout_error.

Definition refused : AxiosOutcome := AxRejected refused_error.

(** The sample data of the deployment guide: a header row and two rows. *)
Definition sales_file : Client.File :=
  {| Client.file_name := "sample-data.csv"; Client.file_size := 38;
     Client.header := ["region"; "sales"] |}.

Definition one_suggestion_body : Json.value :=
  Json.JObj [("suggestions", Json.JArr [Json.JStr "Show sales by region as a bar chart"])].

Definition constant_table : Engine.Table :=
  [ {| Engine.col_name := "region"; Engine.col_type := Engine.categorical;
       Engine.cells := [Some "A"; Some "A"; Some "A"] |};
    {| Engine.col_name := "sales"; Engine.col_type := Engine.numeric;
       Engine.cells := [Some "10"; Some "10"; Some "10"] |} ].

Definition constant_profiles : list Engine.ColumnProfile :=
  [ {| Engine.cp_name := "region"; Engine.cp_type := Engine.categorical;
       Engine.distinctCount := 1; Engine.nullCount := 0; Engine.nullRatio := 0 |};
    {| Engine.cp_name := "sales"; Engine.cp_type := Engine.numeric;
       Engine.distinctCount := 1; Engine.nullCount := 0; Engine.nullRatio := 0 |} ].

End Examples.


(** ** More of the client: the drop zone, the forms it posts, the error
    line and what the components render *)

Module Views.

Import Client.

(** [FileUpload.onDrop]: the callbacks it invokes for the files the drop
    zone accepted. *)
Definition onDrop (acceptedFiles : list File) : list Action :=
  match acceptedFiles with
  | [] => []
  | file :: _ =>
    if 10 * 1024 * 1024 <? file_size file     (* 10MB limit *)
    then []
    else [FileSelect (Some file)]
  end.

(** The multipart form both client calls build,
    [formData.append('file', selectedFile)] and
    [formData.append('query', q)], as busboy reports it to the gateway:
    [reportedName] and [reportedType] are the file name and the type it
    reads off the headers of the file part. *)
Definition formRequest (file : File) (reportedName reportedType : string)
    (q : string) : Gateway.Request :=
  {| Gateway.req_part :=
       Some {| Gateway.fieldname := "file";
               Gateway.originalname := reportedName;
               Gateway.mimetype := reportedType;
               Gateway.size := file_size file |};
     Gateway.req_query := Some q |}.

(** The form of [handleSubmit]. *)
Definition submitRequest (file : File) (reportedName reportedType : string)
    (currentQuery : string) : Gateway.Request :=
  formRequest file reportedName reportedType currentQuery.

(** The form of [generateSmartSuggestions], with its special query. *)
Definition suggestionsRequest (file : File) (reportedName reportedType : string)
  : Gateway.Request :=
  formRequest file reportedName reportedType "generate suggestions".

(** The [catch] block of [handleSubmit]: the value handed to [setError]
    and [toast.error]. [responseData] is [error.response?.data] ([None]
    when there is no response) and [message] is [error.message]. *)
Definition defaultErrorMessage : string :=
  "Failed to generate graph. Please try again.".

Definition errorMessage (responseData : option Json.value) (message : string)
  : Json.value :=
  let bodyError :=
    match responseData with
    | Some data => Json.get "error" data
    | None => None
    end in
  match bodyError with
  | Some v =>
    if Json.truthy (Some v) then v
    else if negb (String.eqb message "") then Json.JStr message
    else Json.JStr defaultErrorMessage
  | None =>
    if negb (String.eqb message "") then Json.JStr message
    else Json.JStr defaultErrorMessage
  end.

(** The three conditional steps [App] renders. *)
Definition showsQueryStep (s : AppState) : bool :=
  bool_decide (is_Some (selectedFile s)).

Definition showsClarification (s : AppState) : bool :=
  Json.truthy (Some (chatbotResponse s)).

Definition showsGraphStep (s : AppState) : bool :=
  Json.truthy (Some (graphResult s)) || isLoading s.

(** What [GraphDisplay] returns. *)
Inductive GraphView :=
| Spinner
| Nothing
| Chart (result : Json.value).

Definition graphDisplay (graphResult : Json.value) (isLoading : bool) : GraphView :=
  if isLoading then Spinner
  else if negb (Json.truthy (Some graphResult)) then Nothing
  else Chart graphResult.

(** [ChatbotInterface]: [errorType === 'data_quality'] and the two panels
    that depend on it. The props are fields of the clarification body. *)
Definition isDataQualityError (errorType : option Json.value) : bool :=
  match errorType with
  | Some (Json.JStr t) => String.eqb t "data_quality"
  | _ => false
  end.

Definition showsQualityIssues (response : Json.value) : bool :=
  isDataQualityError (Json.get "error_type" response)
  && Json.truthy (Json.get "data_quality_issues" response).

Definition showsDataInfo (response : Json.value) : bool :=
  Json.truthy (Json.get "data_info" response)
  && negb (isDataQualityError (Json.get "error_type" response)).

(** [chart_type.replace('_', ' ').toUpperCase()], the chip of
    [GraphDisplay]: a string pattern replaces its first occurrence only. *)
Fixpoint replaceFirst (from to : ascii) (s : string) : string :=
  match s with
  | EmptyString => EmptyString
  | String c rest =>
    if Ascii.eqb c from then String to rest
    else String c (replaceFirst from to rest)
  end.

Definition upper_ascii (c : ascii) : ascii :=
  let n := N_of_ascii c in
  if ((97 <=? n) && (n <=? 122))%N then ascii_of_N (n - 32) else c.

Fixpoint toUpperCase (s : string) : string :=
  match s with
  | EmptyString => EmptyString
  | String c rest => String (upper_ascii c) (toUpperCase rest)
  end.

Definition chartLabel (chart_type : string) : string :=
  toUpperCase (replaceFirst "_" " " chart_type).

Fixpoint count_char (c : ascii) (s : string) : nat :=
  match s with
  | EmptyString => 0%nat
  | String c' rest => ((if Ascii.eqb c' c then 1 else 0) + count_char c rest)%nat
  end.

End Views.

Module MoreExamples.

Import Gateway Examples.

(** An accepted CSV upload without the [query] field. *)
Definition no_query_request : Request :=
  {| req_part := Some csv_part; req_query := None |}.

(** A CSV named and sized well but declared as a PDF. *)
Definition pdf_typed_part : FilePart :=
  {| fieldname := "file"; originalname := "sales.csv";
     mimetype := "application/pdf"; size := 2048 |}.

(** A valid CSV posted under the field [data]. *)
Definition misnamed_part : FilePart :=
  {| fieldname := "data"; originalname := "sales.csv";
     mimetype := "text/csv"; size := 2048 |}.

Definition stored_csv : StoredFile :=
  {| sf_path := "/srv/graph-bot/server/uploads/3f2c9d1e.csv";
     sf_originalname := "sales.csv"; sf_mimetype := "text/csv"; sf_size := 2048 |}.

(** A file of exactly 10 * 1024 * 1024 bytes. *)
Definition limit_file : Client.File :=
  {| Client.file_name := "ledger.csv"; Client.file_size := 10485760;
     Client.header := ["account"; "amount"] |}.

(** A part sent without a file name. *)
Definition nameless_part : FilePart :=
  {| fieldname := "file"; originalname := "";
     mimetype := "text/csv"; size := 2048 |}.

(** An object where the [suggestions] array belongs. *)
Definition object_suggestions_body : Json.value :=
  Json.JObj [("suggestions", Json.JObj [("length", Json.JNum 3)])].

(** U+00A0, the no-break space, as a query. *)
Definition nbsp_query : string :=
  String (ascii_of_nat 194) (String (ascii_of_nat 160) EmptyString).

Definition quality_body : Json.value :=
  Json.JObj [("is_chatbot_response", Json.JBool true);
             ("error_type", Json.JStr "data_quality");
             ("data_quality_issues", Json.JArr [Json.JStr "All columns are constant"]);
             ("data_info", Json.JObj [("data_shape", Json.JStr "3 rows x 2 columns")])].

End MoreExamples.

(** * The gateway *)

#[local] Set Warnings "-clear-no-such-hyp".

(** ** Traces and the effects on the uploads directory *)

Section Traces.

Import Gateway.

Lemma unlink_run_present p env w :
  p ∈ uploads w ->
  unlink_run p env w =
    (None, {| uploads := uploads w ∖ {[ p ]}; uuids_drawn := uuids_drawn w;
              trace := trace w ++ [EvRemoved p] |}).
Proof.
  intros Hin. unfold unlink_run.
  destruct (decide (p ∈ uploads w)) as [_|Hout]; [reflexivity | contradiction].
Qed.

Lemma fs_unlink_early p env w :
  unlink_early env = true ->
  p ∈ uploads w ->
  fs_unlink p env w =
    (Ran None, {| uploads := uploads w ∖ {[ p ]}; uuids_drawn := uuids_drawn w;
                  trace := (trace w ++ [EvUnlink p]) ++ [EvRemoved p] |}).
Proof.
  intros Hearly Hin. unfold fs_unlink, bind, emit, ask, ret. rewrite Hearly.
  rewrite unlink_run_present by exact Hin. reflexivity.
Qed.

Lemma fs_unlink_late p env w :
  unlink_early env = false ->
  fs_unlink p env w =
    (Queued, {| uploads := uploads w; uuids_drawn := uuids_drawn w;
                trace := trace w ++ [EvUnlink p] |}).
Proof.
  intros Hlate. unfold fs_unlink, bind, emit, ask, ret. rewrite Hlate. reflexivity.
Qed.

(** The file multer acts on is the part of the request, and has a name. *)
Lemma req_file_some req file :
  req_file req = Some file <->
  req_part req = Some file /\ String.eqb (originalname file) "" = false.
Proof.
  unfold req_file. destruct (req_part req) as [part|]; [| intuition discriminate].
  destruct (String.eqb (originalname part) "") eqn:Hname.
  - split; [discriminate | intros [Hpart Hfalse]].
    injection Hpart as ->. congruence.
  - split; [intros Hsome; injection Hsome as ->; auto | intros [-> _]; reflexivity].
Qed.

Lemma posts_app tr1 tr2 : posts (tr1 ++ tr2) = (posts tr1 ++ posts tr2)%list.
Proof. apply List.filter_app. Qed.

Lemma responses_app tr1 tr2 :
  responses (tr1 ++ tr2) = (responses tr1 ++ responses tr2)%list.
Proof. apply flat_map_app. Qed.

(** The handler answers every ended downstream call with one response,
    and touches no file while it does. *)
Lemma reply_events_shape o :
  posts (reply_events o) = []
  /\ existsb is_send (reply_events o) = true
  /\ (forall p, ~ In (EvWrite p) (reply_events o))
  /\ exists status body, responses (reply_events o) = [(status, body)].
Proof.
  destruct o as [st data | e]; cbn [reply_events];
    [| destruct (ax_response e) as [[st data] |];
       [| destruct (code_is e "ECONNREFUSED")]];
    (split; [reflexivity |]); (split; [reflexivity |]);
    (split; [intros p Hin; cbn in Hin; intuition discriminate | cbn; eauto]).
Qed.

Lemma reply_events_no_unlink o p :
  ~ In (EvUnlink p) (reply_events o) /\ ~ In (EvRemoved p) (reply_events o).
Proof.
  destruct o as [st data | e]; cbn [reply_events];
    [| destruct (ax_response e) as [[st data] |];
       [| destruct (code_is e "ECONNREFUSED")]];
    split; intros Hin; cbn in Hin; intuition discriminate.
Qed.

(** The removal of the upload is neither a call nor a response. *)
Lemma downstream_trace env p o pre :
  posts (pre ++ removal_early env p ++ reply_events o ++ removal_late env p)
  = posts pre
  /\ responses (pre ++ removal_early env p ++ reply_events o ++ removal_late env p)
     = responses (pre ++ reply_events o).
Proof.
  destruct (reply_events_shape o) as (Hposts & _).
  unfold removal_early, removal_late.
  rewrite !posts_app, !responses_app, Hposts.
  destruct (unlink_early env); cbn; rewrite ?app_nil_r; auto.
Qed.

Lemma before_response_cons e e' rest :
  before_response e (e' :: rest) ->
  (e = e' /\ existsb is_send rest = true)
  \/ (is_send e' = false /\ before_response e rest).
Proof. inversion 1; subst; auto. Qed.

Lemma before_response_nil e : ~ before_response e [].
Proof. inversion 1. Qed.

End Traces.

(** Refutes [before_response] on a trace that is spelled out. *)
Ltac not_before H :=
  repeat (apply before_response_cons in H;
          destruct H as [[Heq Hsent] | [Hnosend H]];
          [try discriminate Heq; try discriminate Hsent
          | first [discriminate Hnosend | clear Hnosend]]);
  try (apply before_response_nil in H; contradiction).

Section GatewayFacts.

Import Gateway.

Variable extname : string -> string.
Variable dirname : string.

#[local] Abbreviation serve := (Gateway.serve extname dirname).
#[local] Abbreviation route := (Gateway.route extname dirname).
#[local] Abbreviation upload_path := (Gateway.upload_path extname dirname).

(** [fileFilter] either accepts or fails with its one message. *)
Lemma fileFilter_cases file :
  (fileFilter extname file = inr true
   /\ includes allowedMimes (mimetype file) = true
   /\ includes allowedExtensions (toLowerCase (extname (originalname file))) = true)
  \/ (fileFilter extname file = inl (plainError "Only CSV and Excel files are allowed!")
      /\ (includes allowedMimes (mimetype file) = false
          \/ includes allowedExtensions
               (toLowerCase (extname (originalname file))) = false)).
Proof.
  unfold fileFilter.
  destruct (includes allowedMimes (mimetype file));
    destruct (includes allowedExtensions _); cbn; auto.
Qed.

(** Every request takes one of the seven routes. *)
Lemma serve_route env fs0 req : route env fs0 req (serve env fs0 req).
Proof.
  unfold Gateway.serve, run_M, post_generate_graph, bind, ask.
  destruct (rate_limited env) eqn:Hlim; [apply route_limited; exact Hlim |].
  unfold upload_single.
  destruct (req_part req) as [file|] eqn:Hpart;
    [| apply route_no_file; [assumption | unfold req_file; rewrite Hpart; reflexivity]].
  destruct (String.eqb (originalname file) "") eqn:Hnamed;
    [apply route_no_file;
       [assumption | unfold req_file; rewrite Hpart, Hnamed; reflexivity] |].
  assert (Hfile : req_file req = Some file)
    by (apply req_file_some; split; assumption).
  destruct (String.eqb (fieldname file) "file") eqn:Hfield; cbn [negb];
    [| eapply route_unexpected_field; eassumption].
  destruct (fileFilter_cases file) as [(-> & Hmime & Hext) | (-> & Hbad)];
    [| eapply route_filtered; eassumption].
  unfold storage_filename, bind, draw_uuid, ret, fs_write.
  cbn [init_world uploads uuids_drawn trace].
  destruct (fileSizeLimit <=? size file) eqn:Hsize.
  - apply Z.leb_le in Hsize.
    pose proof (route_too_large extname dirname env fs0 req file
                  Hlim Hfile Hfield Hmime Hext Hsize) as R.
    destruct (unlink_early env) eqn:Hearly;
      [rewrite fs_unlink_early by (assumption || (cbn; set_solver))
      | rewrite fs_unlink_late by assumption];
      unfold unlink_done, bind, ret;
      try rewrite unlink_run_present by (cbn; set_solver);
      exact R.
  - apply Z.leb_gt in Hsize.
    unfold generate_graph.
    destruct (falsy_str (req_query req)) eqn:Hq;
      [eapply route_no_query; eassumption |].
    pose proof (route_downstream extname dirname env fs0 req file
                  Hlim Hfile Hfield Hmime Hext Hsize Hq) as R.
    unfold removal_early, removal_late in R.
    cbn -[fs_unlink String.append unlink_done].
    destruct (decide _) as [_ | Hgone]; [| exfalso; apply Hgone; set_solver].
    destruct (unlink_early env) eqn:Hearly;
      (destruct (python env 0) as [st data | e]; cbn [reply_events] in R;
       [| destruct (ax_response e) as [[st data] |];
          [| destruct (code_is e "ECONNREFUSED")]]);
      unfold bind;
      first [rewrite fs_unlink_early by (assumption || (cbn; set_solver))
            | rewrite fs_unlink_late by assumption];
      cbn -[String.append unlink_run]; unfold bind;
      try rewrite unlink_run_present by (cbn; set_solver);
      exact R.
Qed.

Ltac same_file :=
  match goal with
  | H1 : req_file ?r = Some ?a, H2 : req_file ?r = Some ?b |- _ =>
    rewrite H1 in H2; injection H2 as ->
  | H1 : req_file ?r = Some _, H2 : req_file ?r = None |- _ =>
    rewrite H1 in H2; discriminate
  end.

Ltac routes env fs0 req :=
  destruct (serve_route env fs0 req)
    as [Hl | Hl Hn | f Hl Hf Hfield | f Hl Hf Hfield Hbad | f Hl Hf Hfield Hmime Hext Hsz
        | f Hl Hf Hfield Hmime Hext Hsz Hq | f Hl Hf Hfield Hmime Hext Hsz Hq];
  cbn [trace uploads].

(** The downstream route, with the calls and the responses of its trace
    worked out. *)
Ltac downstream env :=
  match goal with
  | |- context [(?pre ++ removal_early env ?p ++ reply_events ?o
                 ++ removal_late env ?p)%list] =>
    destruct (downstream_trace env p o pre) as (Hcalls & Hanswers);
    rewrite ?Hcalls, ?Hanswers
  end.

Ltac answered_without_call :=
  split; [reflexivity | eexists _, _; split; [reflexivity | lia]].

(** C1. A file whose extension (lower-cased) is none of .csv, .xls, .xlsx,
    or whose size exceeds 10 * 1024 * 1024 bytes, is answered with an
    error response and the downstream service is never called; and when
    the service is called, the file passed both checks. *)
Theorem invalid_upload_rejected_before_engine env fs0 req file :
  req_file req = Some file ->
  let w := serve env fs0 req in
  ((includes allowedExtensions (toLowerCase (extname (originalname file))) = false
    \/ 10 * 1024 * 1024 < size file) ->
   posts (trace w) = []
   /\ exists status body,
       responses (trace w) = [(status, body)] /\ 400 <= status <= 599)
  /\ (posts (trace w) <> [] ->
      includes allowedExtensions (toLowerCase (extname (originalname file))) = true
      /\ size file <= 10 * 1024 * 1024).
Proof.
  intros Hfile w. subst w.
  routes env fs0 req; try same_file;
    try (split; [intros _; answered_without_call
                | intros Hp; exfalso; apply Hp; reflexivity]).
  unfold fileSizeLimit in Hsz.
  split; [| intros _; split; [exact Hext | lia]].
  intros [Hbad | Hbig]; [congruence | lia].
Qed.

(** C2, as the code has it. Every downstream call carries a timeout of
    300000 ms (five minutes), so the call is bounded; when it expires
    (axios rejects without a response, with code ECONNABORTED or
    ETIMEDOUT, not ECONNREFUSED) the gateway answers 500 with an error
    field. *)
Theorem downstream_timeout_five_minutes env fs0 req url form cfg :
  In (EvPost url form cfg) (trace (serve env fs0 req)) ->
  timeout cfg = 300000
  /\ timeouts_within 300000 (trace (serve env fs0 req))
  /\ forall e, python env 0 = AxRejected e ->
       ax_response e = None ->
       code_is e "ECONNREFUSED" = false ->
       responses (trace (serve env fs0 req)) =
         [(500, BJson (Json.error_obj "Failed to start graph generation service"))].
Proof.
  assert (Hall : forall u fm c,
             In (EvPost u fm c) (trace (serve env fs0 req)) -> timeout c = 300000).
  { intros u fm c Hin.
    assert (Hp : In (EvPost u fm c) (posts (trace (serve env fs0 req))))
      by (apply filter_In; split; [exact Hin | reflexivity]).
    revert Hp. clear Hin.
    routes env fs0 req; try downstream env; intros Hin; cbn in Hin;
      try (intuition discriminate).
    destruct Hin as [Hin | []].
    injection Hin as Hu Hfm Hc. subst c. reflexivity. }
  intros Hin. split; [exact (Hall _ _ _ Hin) |].
  split.
  - intros u fm c Hc. rewrite (Hall _ _ _ Hc). lia.
  - intros e Hpy Hresp Hcode. revert Hin.
    routes env fs0 req; try downstream env; intros Hin; cbn in Hin;
      try (intuition discriminate).
    rewrite Hpy. cbn [reply_events]. rewrite Hresp, Hcode. reflexivity.
Qed.

(** C5. When the downstream call fails without a response (connection
    refused, transport error, timeout), the gateway answers with a 5xx
    status and a body [{ error: msg }]; that body is not a clarification
    payload. *)
Theorem collaborator_failure_is_service_failure env fs0 req e :
  posts (trace (serve env fs0 req)) <> [] ->
  python env 0 = AxRejected e ->
  ax_response e = None ->
  exists status msg,
    responses (trace (serve env fs0 req)) = [(status, BJson (Json.error_obj msg))]
    /\ 500 <= status <= 599
    /\ Json.get "error" (Json.error_obj msg) = Some (Json.JStr msg)
    /\ Client.is_chatbot_response (Json.error_obj msg) = false.
Proof.
  routes env fs0 req; try downstream env; intros Hposts Hpy Hresp;
    try (exfalso; apply Hposts; reflexivity).
  rewrite Hpy. cbn [reply_events]. rewrite Hresp.
  destruct (code_is e "ECONNREFUSED");
    eexists _, _; (split; [reflexivity |]); (split; [lia |]);
    split; reflexivity.
Qed.

(** C6. The downstream service is called at most once per request; when
    that call fails there is still exactly one call in the trace (no
    retry) and the one response is the error: the downstream status and
    body, or 503 / 500 with an error field. *)
Theorem downstream_called_at_most_once env fs0 req :
  let w := serve env fs0 req in
  (length (posts (trace w)) <= 1)%nat
  /\ (posts (trace w) <> [] ->
      length (posts (trace w)) = 1%nat
      /\ match python env 0 with
         | AxResolved _ _ => True
         | AxRejected e =>
           match ax_response e with
           | Some (status, data) => responses (trace w) = [(status, BJson data)]
           | None =>
             exists status msg,
               responses (trace w) = [(status, BJson (Json.error_obj msg))]
               /\ (status = 503 \/ status = 500)
           end
         end).
Proof.
  intros w. subst w.
  routes env fs0 req; try downstream env;
    try (split; [cbn; lia | intros Hp; exfalso; apply Hp; reflexivity]).
  destruct (python env 0) as [st data | e]; cbn [reply_events];
    [| destruct (ax_response e) as [[st data] |];
       [| destruct (code_is e "ECONNREFUSED")]];
    (split; [cbn; lia | intros _; split; [reflexivity |]]);
    cbn; eauto.
Qed.

(** C8, as the code has it. For a request with a file and a non-empty
    query, every file the request wrote into the uploads directory has its
    [fs.unlink] called before the response is sent, whatever the
    downstream call ended in, and has left the directory once the
    callbacks of the request have run: nothing the request wrote stays
    behind. The removal itself takes place before the response exactly
    when the thread pool runs the unlink before the handler goes on, or
    when multer removed an oversized upload and no downstream call was
    made; otherwise the file is still in the directory when the response
    is sent. A request that reached the downstream service did write its
    upload. *)
Theorem upload_unlinked_before_response env fs0 req file :
  req_file req = Some file ->
  falsy_str (req_query req) = false ->
  let w := serve env fs0 req in
  (forall p, In (EvWrite p) (trace w) ->
     before_response (EvUnlink p) (trace w)
     /\ In (EvRemoved p) (trace w)
     /\ (p ∉ uploads w)
     /\ (before_response (EvRemoved p) (trace w)
         <-> unlink_early env = true \/ posts (trace w) = []))
  /\ uploads w ⊆ fs0
  /\ (posts (trace w) <> [] -> In (EvWrite (upload_path env file)) (trace w)).
Proof.
  intros Hfile Hquery w. subst w.
  routes env fs0 req; try same_file; try congruence;
    try (split; [intros p Hin; cbn in Hin; intuition discriminate
                | split; [set_solver | intros Hp; exfalso; apply Hp; reflexivity]]).
  - split; [| split; [set_solver | intros Hp; exfalso; apply Hp; reflexivity]].
    intros p [Hin | [Hin | [Hin | [Hin | []]]]]; try discriminate.
    injection Hin as Hp. subst p.
    split; [apply br_later; [reflexivity |]; apply br_here; reflexivity |].
    split; [cbn; auto |]. split; [set_solver |].
    split; [intros _; right; reflexivity | intros _].
    do 2 (apply br_later; [reflexivity |]). apply br_here. reflexivity.
  - destruct (reply_events_shape (python env 0)) as (_ & Hsend & Hnowrite & _).
    split; [| split; [set_solver | intros _; left; reflexivity]].
    intros p Hin.
    assert (Hp : p = upload_path env f).
    { unfold removal_early, removal_late in Hin.
      destruct (unlink_early env); cbn in Hin;
        repeat (destruct Hin as [Hin | Hin]; try discriminate Hin;
                try (injection Hin as Hin; symmetry; exact Hin));
        rewrite ?in_app_iff in Hin; cbn in Hin;
        exfalso; intuition (try discriminate); eapply Hnowrite; eassumption. }
    subst p.
    assert (Hcalled : posts
              ([EvWrite (upload_path env f);
                EvLog [processing_line env f (req_query req)];
                EvLog [calling_line env];
                EvPost (service_url env)
                  (form_of extname dirname env f (req_query req)) axiosConfig;
                EvUnlink (upload_path env f)]
               ++ removal_early env (upload_path env f)
               ++ reply_events (python env 0)
               ++ removal_late env (upload_path env f)) <> []).
    { downstream env. discriminate. }
    split.
    { do 4 (apply br_later; [reflexivity |]). apply br_here.
      rewrite !existsb_app, Hsend. apply orb_true_iff. right. reflexivity. }
    split.
    { unfold removal_early, removal_late.
      destruct (unlink_early env); cbn; rewrite ?in_app_iff; cbn; auto 10. }
    split; [set_solver |].
    split.
    + intros Hbefore.
      destruct (unlink_early env) eqn:Hearly; [left; reflexivity | exfalso].
      revert Hbefore. unfold removal_early, removal_late. rewrite Hearly.
      destruct (python env 0) as [st data | e]; cbn [reply_events];
        [| destruct (ax_response e) as [[st data] |];
           [| destruct (code_is e "ECONNREFUSED")]];
        cbn; intros Hbefore; not_before Hbefore.
    + intros [Hearly | Hnone]; [| contradiction].
      unfold removal_early. rewrite Hearly.
      do 5 (apply br_later; [reflexivity |]). apply br_here.
      rewrite existsb_app, Hsend. reflexivity.
Qed.

(** C9. The handler answers a request without a file with 400 "No file
    uploaded", and a request with a file but a missing or empty query with
    400 "No query provided"; in both cases the response is its only
    effect, so the downstream service is not called. *)
Theorem missing_file_or_query_answered_400 env w file q q' :
  q = None \/ q = Some "" ->
  run_M (generate_graph None q') env w =
    {| uploads := uploads w; uuids_drawn := uuids_drawn w;
       trace := trace w ++ [EvSend 400 (BJson (Json.error_obj "No file uploaded"))] |}
  /\ run_M (generate_graph (Some file) q) env w =
    {| uploads := uploads w; uuids_drawn := uuids_drawn w;
       trace := trace w ++ [EvSend 400 (BJson (Json.error_obj "No query provided"))] |}
  /\ posts (trace (run_M (generate_graph None q') env w)) = posts (trace w)
  /\ posts (trace (run_M (generate_graph (Some file) q) env w)) = posts (trace w).
Proof.
  intros [-> | ->]; cbn; unfold posts; rewrite !List.filter_app; cbn;
    rewrite !app_nil_r; auto.
Qed.

(** The same two answers end to end, for a client that is not rate
    limited: without a file part, and with an accepted upload but no
    query (the upload then stays in the uploads directory). *)
Lemma missing_file_or_query_end_to_end env fs0 req :
  rate_limited env = false ->
  (req_file req = None ->
   trace (serve env fs0 req) =
     [EvSend 400 (BJson (Json.error_obj "No file uploaded"))])
  /\ (forall file,
        req_file req = Some file ->
        fieldname file = "file" ->
        fileFilter extname file = inr true ->
        size file < 10 * 1024 * 1024 ->
        falsy_str (req_query req) = true ->
        trace (serve env fs0 req) =
          [EvWrite (upload_path env file);
           EvSend 400 (BJson (Json.error_obj "No query provided"))]
        /\ upload_path env file ∈ uploads (serve env fs0 req)).
Proof.
  intros Hlim. split.
  - intros Hnone. routes env fs0 req; try reflexivity; congruence.
  - intros file Hfile Hname Hfilter Hsize Hquery.
    destruct (fileFilter_cases file) as [(_ & Hallowed & Hgood) | (Hrej & _)];
      [| congruence].
    routes env fs0 req; try same_file; try congruence;
      try (rewrite Hname in Hfield; discriminate);
      try (destruct Hbad; congruence);
      try (unfold fileSizeLimit in *; lia).
    split; [reflexivity | set_solver].
Qed.

(** C10. When the downstream call succeeds the response body is the
    downstream body (status 200); when the downstream service answers with
    an error response the gateway sends the same status and the same
    body. *)
Theorem gateway_passes_downstream_answer_through env fs0 req :
  posts (trace (serve env fs0 req)) <> [] ->
  match python env 0 with
  | AxResolved _ data =>
    responses (trace (serve env fs0 req)) = [(200, BJson data)]
  | AxRejected e =>
    match ax_response e with
    | Some (status, data) =>
      responses (trace (serve env fs0 req)) = [(status, BJson data)]
    | None => True
    end
  end.
Proof.
  routes env fs0 req; try downstream env; intros Hposts;
    try (exfalso; apply Hposts; reflexivity).
  destruct (python env 0) as [st data | e]; [reflexivity |].
  cbn [reply_events]. destruct (ax_response e) as [[st data] |]; [reflexivity | exact I].
Qed.

(** What the two refusals of C1 look like to a client that is not rate
    limited and uploads under the [file] field; the size limit refuses a
    file of 10 * 1024 * 1024 bytes as well. *)
Lemma invalid_upload_messages env fs0 req file :
  rate_limited env = false ->
  req_file req = Some file ->
  fieldname file = "file" ->
  (includes allowedExtensions (toLowerCase (extname (originalname file))) = false ->
   responses (trace (serve env fs0 req)) =
     [(400, BJson (Json.error_obj "Only CSV and Excel files are allowed!"))])
  /\ (includes allowedMimes (mimetype file) = true ->
      includes allowedExtensions (toLowerCase (extname (originalname file))) = true ->
      10 * 1024 * 1024 <= size file ->
      responses (trace (serve env fs0 req)) =
        [(400, BJson (Json.error_obj "File size too large. Maximum 10MB allowed."))]).
Proof.
  intros Hlim Hfile Hname.
  routes env fs0 req; try same_file; try congruence;
    try (rewrite Hname in Hfield; discriminate);
    (split; [intros Hext' | intros Hmime' Hext' Hbig]);
    try reflexivity; try congruence;
    try (destruct Hbad; congruence);
    unfold fileSizeLimit in *; lia.
Qed.

End GatewayFacts.

(** ** The gateway on sample requests *)

Section GatewaySamples.

Import Gateway Examples.

#[local] Abbreviation node_serve := (Gateway.serve NodePath.extname "/srv/graph-bot/server").

Lemma invalid_upload_rejected_witness :
  posts (trace (node_serve (env_with (AxResolved 200 chart_body)) ∅ (request_of txt_part))) = []
  /\ exists status body,
      responses (trace (node_serve (env_with (AxResolved 200 chart_body)) ∅
                          (request_of txt_part))) = [(status, body)]
      /\ 400 <= status <= 599.
Proof.
  apply (invalid_upload_rejected_before_engine NodePath.extname "/srv/graph-bot/server"
           (env_with (AxResolved 200 chart_body)) ∅ (request_of txt_part) txt_part
           eq_refl).
  left. reflexivity.
Defined.

(** C2, as the claim states it, fails: the one downstream call of a valid
    request carries a timeout of 300000 ms, more than 60000 ms. *)
Lemma downstream_timeout_exceeds_60s :
  ~ timeouts_within 60000
      (trace (node_serve (env_with timed_out) ∅ (request_of csv_part))).
Proof.
  intros Hwithin.
  assert (Hbound : 0 < timeout axiosConfig <= 60000).
  { eapply Hwithin. vm_compute. do 3 right. left. reflexivity. }
  cbn in Hbound. lia.
Qed.

Lemma downstream_timeout_witness :
  timeout axiosConfig = 300000
  /\ timeouts_within 300000
       (trace (node_serve (env_with timed_out) ∅ (request_of csv_part)))
  /\ forall e, timed_out = AxRejected e ->
       ax_response e = None ->
       code_is e "ECONNREFUSED" = false ->
       responses (trace (node_serve (env_with timed_out) ∅ (request_of csv_part))) =
         [(500, BJson (Json.error_obj "Failed to start graph generation service"))].
Proof.
  apply (downstream_timeout_five_minutes NodePath.extname "/srv/graph-bot/server"
           (env_with timed_out) ∅ (request_of csv_part)
           "http://localhost:8000/generate-graph"
           (form_of NodePath.extname "/srv/graph-bot/server" (env_with timed_out)
              csv_part (Some bar_query))).
  vm_compute. do 3 right. left. reflexivity.
Defined.

Lemma collaborator_failure_witness :
  exists status msg,
    responses (trace (node_serve (env_with refused) ∅ (request_of csv_part))) =
      [(status, BJson (Json.error_obj msg))]
    /\ 500 <= status <= 599
    /\ Json.get "error" (Json.error_obj msg) = Some (Json.JStr msg)
    /\ Client.is_chatbot_response (Json.error_obj msg) = false.
Proof.
  apply (collaborator_failure_is_service_failure NodePath.extname "/srv/graph-bot/server"
           (env_with refused) ∅ (request_of csv_part) refused_error).
  - vm_compute. discriminate.
  - reflexivity.
  - reflexivity.
Defined.

Lemma downstream_called_once_witness :
  length (posts (trace (node_serve (env_with (AxRejected unprocessable_error)) ∅
                          (request_of csv_part)))) = 1%nat
  /\ responses (trace (node_serve (env_with (AxRejected unprocessable_error)) ∅
                         (request_of csv_part))) = [(422, BJson clarification_body)].
Proof.
  apply (proj2 (downstream_called_at_most_once NodePath.extname "/srv/graph-bot/server"
                  (env_with (AxRejected unprocessable_error)) ∅
                  (request_of csv_part))).
  vm_compute. discriminate.
Defined.

(** C8, as the claim states it, fails: when the thread pool runs the
    unlink only after the handler has gone on, the upload of a valid
    request is still in the uploads directory when the response is
    sent. *)
Lemma upload_still_there_at_response :
  ~ removed_before_response
      (trace (node_serve (env_with (AxResolved 200 chart_body)) ∅
                (request_of csv_part))).
Proof.
  intros Hremoved.
  assert (Hbefore : before_response
            (EvRemoved "/srv/graph-bot/server/uploads/3f2c9d1e.CSV")
            (trace (node_serve (env_with (AxResolved 200 chart_body)) ∅
                      (request_of csv_part)))).
  { apply Hremoved. vm_compute. left. reflexivity. }
  vm_compute in Hbefore. not_before Hbefore.
Qed.

Lemma upload_unlinked_witness :
  before_response (EvUnlink "/srv/graph-bot/server/uploads/3f2c9d1e.CSV")
    (trace (node_serve (env_with refused) ∅ (request_of csv_part)))
  /\ In (EvRemoved "/srv/graph-bot/server/uploads/3f2c9d1e.CSV")
       (trace (node_serve (env_with refused) ∅ (request_of csv_part)))
  /\ ("/srv/graph-bot/server/uploads/3f2c9d1e.CSV"
        ∉ uploads (node_serve (env_with refused) ∅ (request_of csv_part)))
  /\ (before_response (EvRemoved "/srv/graph-bot/server/uploads/3f2c9d1e.CSV")
        (trace (node_serve (env_with refused) ∅ (request_of csv_part)))
      <-> unlink_early (env_with refused) = true
          \/ posts (trace (node_serve (env_with refused) ∅ (request_of csv_part))) = []).
Proof.
  apply (proj1 (upload_unlinked_before_response NodePath.extname "/srv/graph-bot/server"
                  (env_with refused) ∅ (request_of csv_part) csv_part
                  eq_refl eq_refl)).
  vm_compute. left. reflexivity.
Defined.

Lemma missing_query_witness :
  trace (run_M (generate_graph
                  (Some {| sf_path := "/srv/graph-bot/server/uploads/3f2c9d1e.csv";
                           sf_originalname := "sales.csv";
                           sf_mimetype := "text/csv"; sf_size := 2048 |})
                  (Some ""))
           (env_with refused) (init_world ∅)) =
    [EvSend 400 (BJson (Json.error_obj "No query provided"))].
Proof.
  pose proof (missing_file_or_query_answered_400 (env_with refused) (init_world ∅)
                {| sf_path := "/srv/graph-bot/server/uploads/3f2c9d1e.csv";
                   sf_originalname := "sales.csv";
                   sf_mimetype := "text/csv"; sf_size := 2048 |}
                (Some "") None (or_intror eq_refl)) as (_ & Hq & _).
  rewrite Hq. reflexivity.
Defined.

Lemma pass_through_witness :
  responses (trace (node_serve (env_with (AxResolved 200 chart_body)) ∅
                      (request_of csv_part))) = [(200, BJson chart_body)].
Proof.
  apply (gateway_passes_downstream_answer_through NodePath.extname "/srv/graph-bot/server"
           (env_with (AxResolved 200 chart_body)) ∅ (request_of csv_part)).
  vm_compute. discriminate.
Defined.

End GatewaySamples.

(** * The client *)

Section ClientFacts.

Import Client.

Lemma reachable_exclusive s :
  reachable s -> graphResult s = Json.JNull \/ chatbotResponse s = Json.JNull.
Proof.
  induction 1 as [| s a Hs IH].
  - left. reflexivity.
  - destruct a; cbn; auto.
Qed.

Lemma reachable_run_actions acts : forall s, reachable s -> reachable (run_actions s acts).
Proof.
  induction acts as [| a acts IH]; intros s Hs; cbn.
  - exact Hs.
  - apply IH. apply reach_step. exact Hs.
Qed.

Lemma handleSubmit_one_result q file sub has http :
  (length (result_actions (handleSubmit q file sub has http)) <= 1)%nat.
Proof.
  unfold handleSubmit.
  destruct (blank q || negb (bool_decide (is_Some file)) || sub); [cbn; lia |].
  destruct http as [data | msg]; [| cbn; lia].
  destruct (Json.truthy (Json.get "is_chatbot_response" data));
    [destruct has; cbn; lia |].
  destruct (Json.truthy (Json.get "success" data)); cbn; lia.
Qed.

(** C3. In every state the component can reach, [graphResult] and
    [chatbotResponse] are never both non-null: recording a graph result
    clears the clarification, recording a clarification clears the graph
    result, and one submit invokes at most one of the two result callbacks
    (exactly one when the answer is a clarification or a success). *)
Theorem result_variants_never_both s :
  reachable s ->
  (graphResult s = Json.JNull \/ chatbotResponse s = Json.JNull)
  /\ (forall r, graphResult (handleGraphGenerated r s) = r
                /\ chatbotResponse (handleGraphGenerated r s) = Json.JNull)
  /\ (forall c, chatbotResponse (handleChatbotResponse c s) = c
                /\ graphResult (handleChatbotResponse c s) = Json.JNull)
  /\ (forall q file sub has http,
        (length (result_actions (handleSubmit q file sub has http)) <= 1)%nat
        /\ let s' := run_actions s (handleSubmit q file sub has http) in
           graphResult s' = Json.JNull \/ chatbotResponse s' = Json.JNull)
  /\ (forall q file data,
        blank q = false ->
        result_actions (handleSubmit q (Some file) false true (HttpOk data)) =
          if is_chatbot_response data then [ChatbotResponse data]
          else if Json.truthy (Json.get "success" data) then [GraphGenerated data]
          else []).
Proof.
  intros Hs. split; [exact (reachable_exclusive s Hs) |].
  split; [intros r; split; reflexivity |].
  split; [intros c; split; reflexivity |].
  split.
  - intros q file sub has http. split; [apply handleSubmit_one_result |].
    apply reachable_exclusive, reachable_run_actions, Hs.
  - intros q file data Hq. unfold handleSubmit, is_chatbot_response.
    rewrite Hq. cbn.
    destruct (Json.truthy (Json.get "is_chatbot_response" data)); [reflexivity |].
    destruct (Json.truthy (Json.get "success" data)); reflexivity.
Qed.


End ClientFacts.

(** * The quality gate *)

Section EngineFacts.

Import Engine.

(** C7. When every column has a single distinct value, [checkQuality]
    reports [AllColumnsConstant] and [blocking] is true, for every query,
    every table and every configuration. *)
Theorem all_constant_columns_block threshold needsMeasure queryText t profiles :
  Forall (fun p => distinctCount p = 1%nat) profiles ->
  snd (checkQuality threshold needsMeasure queryText t profiles) = true
  /\ In AllColumnsConstant
       (fst (checkQuality threshold needsMeasure queryText t profiles)).
Proof.
  intros Hconst.
  assert (Hall : forallb (fun p => (distinctCount p =? 1)%nat) profiles = true).
  { apply forallb_forall. intros p Hp.
    rewrite Forall_forall in Hconst. apply Nat.eqb_eq, Hconst.
    apply list_elem_of_In. exact Hp. }
  unfold checkQuality. cbn [fst snd]. rewrite Hall.
  assert (Hin : forall pre post : list QualityIssue,
             In AllColumnsConstant (pre ++ [AllColumnsConstant] ++ post)).
  { intros pre post. apply in_or_app. right. left. reflexivity. }
  split; [| apply Hin].
  apply existsb_exists. exists AllColumnsConstant. split; [apply Hin | reflexivity].
Qed.

End EngineFacts.

Section ClientSamples.

Import Client Examples.

Lemma result_variants_witness :
  graphResult (step (step initial (ChatbotResponse clarification_body))
                 (GraphGenerated chart_body)) = chart_body
  /\ chatbotResponse (step (step initial (ChatbotResponse clarification_body))
                        (GraphGenerated chart_body)) = Json.JNull.
Proof.
  pose proof (result_variants_never_both
                (step initial (ChatbotResponse clarification_body))
                (reach_step _ _ reach_initial)) as (_ & Hgraph & _).
  exact (Hgraph chart_body).
Defined.


(** The count is not kept either: one suggestion from the server is shown alone. *)
Lemma single_server_suggestion_shown_alone :
  ~ suggestions_from_columns (header sales_file)
      (shown (generateSmartSuggestions (Some sales_file) (Json.JArr [])
                (HttpOk one_suggestion_body))).
Proof.
  intros [Hcount _]. cbn in Hcount. lia.
Qed.


Lemma all_constant_columns_witness :
  snd (Engine.checkQuality Engine.defaultMissingThreshold (fun _ => false)
         bar_query constant_table constant_profiles) = true
  /\ In Engine.AllColumnsConstant
       (fst (Engine.checkQuality Engine.defaultMissingThreshold (fun _ => false)
               bar_query constant_table constant_profiles)).
Proof.
  apply (all_constant_columns_block Engine.defaultMissingThreshold (fun _ => false)
           bar_query constant_table constant_profiles).
  repeat constructor.
Defined.

End ClientSamples.

(** * The model on concrete inputs *)

Section Checks.

Import Gateway Examples MoreExamples.

Example extname_upper : NodePath.extname "sales.CSV" = ".CSV".
Proof. reflexivity. Qed.

Example extname_last_dot : NodePath.extname "report.2024.xlsx" = ".xlsx".
Proof. reflexivity. Qed.

Example extname_dotfile : NodePath.extname ".csv" = "".
Proof. reflexivity. Qed.

Example extname_none : NodePath.extname "sales" = "".
Proof. reflexivity. Qed.

Example filter_accepts_upper_case :
  fileFilter NodePath.extname csv_part = inr true.
Proof. reflexivity. Qed.

Example filter_rejects_txt :
  fileFilter NodePath.extname txt_part
  = inl (plainError "Only CSV and Excel files are allowed!").
Proof. reflexivity. Qed.

(** A file of exactly [limits.fileSize] bytes hits the limit. *)
Example ten_megabytes_refused :
  trace (Gateway.serve NodePath.extname "/srv/graph-bot/server"
           (env_with (AxResolved 200 chart_body)) ∅
           (request_of {| fieldname := "file";
                          originalname := "sales.csv";
                          mimetype := "text/csv";
                          size := 10 * 1024 * 1024 |}))
  = [EvWrite "/srv/graph-bot/server/uploads/3f2c9d1e.csv";
     EvUnlink "/srv/graph-bot/server/uploads/3f2c9d1e.csv";
     EvRemoved "/srv/graph-bot/server/uploads/3f2c9d1e.csv";
     EvSend 400 (BJson (Json.error_obj "File size too large. Maximum 10MB allowed."))].
Proof. vm_compute. reflexivity. Qed.

(** One byte less passes. *)
Example one_byte_less_passes :
  length (posts (trace (Gateway.serve NodePath.extname "/srv/graph-bot/server"
                          (env_with (AxResolved 200 chart_body)) ∅
                          (request_of {| fieldname := "file";
                                         originalname := "sales.csv";
                                         mimetype := "text/csv";
                                         size := 10 * 1024 * 1024 - 1 |})))) = 1%nat.
Proof. vm_compute. reflexivity. Qed.

(** A part without a file name is no upload. *)
Example nameless_part_is_no_file :
  trace (Gateway.serve NodePath.extname "/srv/graph-bot/server"
           (env_with (AxResolved 200 chart_body)) ∅ (request_of nameless_part))
  = [EvSend 400 (BJson (Json.error_obj "No file uploaded"))].
Proof. vm_compute. reflexivity. Qed.

Example refused_run :
  responses (trace (Gateway.serve NodePath.extname "/srv/graph-bot/server"
                      (env_with refused) ∅ (request_of csv_part)))
  = [(503, BJson (Json.error_obj "Graph generation service unavailable"))]
  /\ elements (uploads (Gateway.serve NodePath.extname "/srv/graph-bot/server"
                          (env_with refused) ∅ (request_of csv_part))) = [].
Proof. vm_compute. split; reflexivity. Qed.

(** The success path when the thread pool is late: the response goes out
    while the upload is still in the directory. *)
Example success_run :
  trace (Gateway.serve NodePath.extname "/srv/graph-bot/server"
           (env_with (AxResolved 200 chart_body)) ∅ (request_of csv_part))
  = [EvWrite "/srv/graph-bot/server/uploads/3f2c9d1e.CSV";
     EvLog [Json.JStr ("Processing request 9b1e07aa: Query=" +:+ dq +:+ bar_query
                       +:+ dq +:+ ", File=" +:+ dq +:+ "sales.CSV" +:+ dq)];
     EvLog [Json.JStr "Calling Python service at http://localhost:8000/generate-graph"];
     EvPost "http://localhost:8000/generate-graph"
       {| fd_file := "/srv/graph-bot/server/uploads/3f2c9d1e.CSV";
          fd_filename := "sales.CSV"; fd_contentType := "text/csv";
          fd_query := bar_query; fd_session_id := "9b1e07aa" |} axiosConfig;
     EvUnlink "/srv/graph-bot/server/uploads/3f2c9d1e.CSV";
     EvSend 200 (BJson chart_body);
     EvRemoved "/srv/graph-bot/server/uploads/3f2c9d1e.CSV"].
Proof. vm_compute. reflexivity. Qed.

Example submit_clarification :
  Client.handleSubmit bar_query (Some sales_file) false true
    (Client.HttpOk clarification_body)
  = [Client.LoadingChange true; Client.QuerySubmit bar_query;
     Client.ChatbotResponse clarification_body; Client.LoadingChange false].
Proof. reflexivity. Qed.

(** [trim()] strips the no-break space: such a query is not submitted. *)
Example nbsp_query_not_submitted :
  Client.handleSubmit nbsp_query (Some sales_file) false true
    (Client.HttpOk chart_body) = [].
Proof. reflexivity. Qed.

Example numeric_strings :
  map Client.string_gt0 ["3"; " 0x1f "; "+.5e1"; "1e-400"; "-3"; ""; "0"; "3 apples"]
  = [true; true; true; false; false; false; false; false].
Proof. vm_compute. reflexivity. Qed.

(** An object with a positive [length] passes the guard of
    [generateSmartSuggestions] and is stored as it is. *)
Example object_suggestions_stored :
  Client.generateSmartSuggestions (Some sales_file) (Json.JArr [])
    (Client.HttpOk object_suggestions_body)
  = Json.JObj [("length", Json.JNum 3)].
Proof. reflexivity. Qed.

(** The file of exactly 10 * 1024 * 1024 bytes: the drop zone selects it
    and the gateway refuses it. *)
Example limit_file_refused_by_gateway :
  Views.onDrop [limit_file] = [Client.FileSelect (Some limit_file)]
  /\ responses (trace (Gateway.serve NodePath.extname "/srv/graph-bot/server"
                         (env_with (AxResolved 200 chart_body)) ∅
                         (Views.submitRequest limit_file "ledger.csv" "text/csv"
                            bar_query))) =
       [(400, BJson (Json.error_obj "File size too large. Maximum 10MB allowed."))].
Proof. split; [reflexivity | vm_compute; reflexivity]. Qed.

End Checks.

(** * More on the gateway *)

Section GatewayMore.

Import Gateway.

Variable extname : string -> string.
Variable dirname : string.

#[local] Abbreviation serve := (Gateway.serve extname dirname).
#[local] Abbreviation upload_path := (Gateway.upload_path extname dirname).

Ltac by_route env fs0 req :=
  destruct (serve_route extname dirname env fs0 req)
    as [Hl | Hl Hn | f Hl Hf Hfield | f Hl Hf Hfield Hbad | f Hl Hf Hfield Hmime Hext Hsz
        | f Hl Hf Hfield Hmime Hext Hsz Hq | f Hl Hf Hfield Hmime Hext Hsz Hq];
  cbn [trace uploads].

Ltac called env :=
  match goal with
  | |- context [(?pre ++ removal_early env ?p ++ reply_events ?o
                 ++ removal_late env ?p)%list] =>
    destruct (downstream_trace env p o pre) as (Hcalls & Hanswers);
    rewrite ?Hcalls, ?Hanswers
  end.

Ltac one_file :=
  match goal with
  | H1 : req_file ?r = Some ?a, H2 : req_file ?r = Some ?b |- _ =>
    rewrite H1 in H2; injection H2 as ->
  | H1 : req_file ?r = Some _, H2 : req_file ?r = None |- _ =>
    rewrite H1 in H2; discriminate
  end.

Lemma prefix_append a b : String.prefix a (a +:+ b) = true.
Proof.
  induction a as [| c a IH]; simpl.
  - destruct b; reflexivity.
  - destruct (ascii_dec c c) as [_ | Hne]; [exact IH | contradiction].
Qed.

Lemma append_assoc_str a b c : (a +:+ b) +:+ c = a +:+ (b +:+ c).
Proof.
  induction a as [| x a IH]; [reflexivity |].
  change (String x ((a +:+ b) +:+ c) = String x (a +:+ (b +:+ c))).
  f_equal. exact IH.
Qed.

(** X1. Every request gets exactly one response. When the downstream
    service was not called, that response is the limiter's 429 text or a
    400 / 500 carrying an error field, never a 200. *)
Theorem every_request_answered_once env fs0 req :
  exists status body,
    responses (trace (serve env fs0 req)) = [(status, body)]
    /\ (posts (trace (serve env fs0 req)) = [] ->
        (rate_limited env = true /\ status = 429 /\ body = BText limiter_message)
        \/ (rate_limited env = false
            /\ (status = 400 \/ status = 500)
            /\ exists msg, body = BJson (Json.error_obj msg))).
Proof.
  by_route env fs0 req; try called env;
    try (eexists _, _; split; [reflexivity |]; intros _;
         first [left; repeat split; (assumption || reflexivity)
               | right; split; [assumption |]; split; [auto | eauto]]).
  destruct (reply_events_shape (python env 0))
    as (_ & _ & _ & st & body & Hresp).
  exists st, body. split.
  - cbn. exact Hresp.
  - intros Hnone. discriminate Hnone.
Qed.

(** X2. A request leaves every path of the uploads directory other than
    its own upload path as it found it. *)
Theorem other_uploads_untouched env fs0 req p :
  (forall file, req_file req = Some file -> p <> upload_path env file) ->
  (p ∈ uploads (serve env fs0 req) <-> p ∈ fs0).
Proof.
  intros Hother.
  by_route env fs0 req; try reflexivity;
    specialize (Hother f Hf); set_solver.
Qed.

(** X3. An accepted upload of less than 10 * 1024 * 1024 bytes whose
    request has no query, or an empty one, is answered 400 "No query
    provided" and stays in the uploads directory: no unlink is called
    for it and it is never removed. *)
Theorem upload_left_behind_without_query env fs0 req file :
  rate_limited env = false ->
  req_file req = Some file ->
  fieldname file = "file" ->
  fileFilter extname file = inr true ->
  size file < 10 * 1024 * 1024 ->
  req_query req = None \/ req_query req = Some "" ->
  responses (trace (serve env fs0 req)) =
    [(400, BJson (Json.error_obj "No query provided"))]
  /\ upload_path env file ∈ uploads (serve env fs0 req)
  /\ ~ In (EvUnlink (upload_path env file)) (trace (serve env fs0 req))
  /\ ~ In (EvRemoved (upload_path env file)) (trace (serve env fs0 req)).
Proof.
  intros Hlim Hfile Hname Hfilter Hsize Hquery.
  assert (Hfalsy : falsy_str (req_query req) = true)
    by (destruct Hquery as [-> | ->]; reflexivity).
  destruct (fileFilter_cases extname file) as [(_ & Hallowed & Hgood) | (Hrej & _)];
    [| congruence].
  by_route env fs0 req; try one_file; try congruence;
    try (rewrite Hname in Hfield; discriminate);
    try (destruct Hbad; congruence);
    try (unfold fileSizeLimit in *; lia).
  split; [reflexivity |]. split; [set_solver |].
  split; cbn; intros [Hin | [Hin | []]]; discriminate.
Qed.

(** X4. An allowed extension alone does not get a file in. When the type
    busboy reports for the file part (the type of its Content-Type
    header, in lower case and without parameters) is not on the
    allow-list, nothing is written and the service is not called; a client
    that is not rate limited and posts under the [file] field, with a
    query of less than 1 MB if any, gets 400 "Only CSV and Excel files are
    allowed!". *)
Theorem disallowed_mime_rejected env fs0 req file :
  req_file req = Some file ->
  includes allowedMimes (mimetype file) = false ->
  posts (trace (serve env fs0 req)) = []
  /\ uploads (serve env fs0 req) = fs0
  /\ (forall p, ~ In (EvWrite p) (trace (serve env fs0 req)))
  /\ (rate_limited env = false -> fieldname file = "file" ->
      (forall q, req_query req = Some q -> Z.of_nat (String.length q) < 1024 * 1024) ->
      trace (serve env fs0 req) =
        [EvSend 400 (BJson (Json.error_obj "Only CSV and Excel files are allowed!"))]).
Proof.
  intros Hfile Hdisallowed.
  by_route env fs0 req; try one_file; try congruence;
    (split; [reflexivity |]); (split; [reflexivity |]);
    (split; [intros p Hin; cbn in Hin; intuition discriminate |]);
    intros Hfree Hname _; try congruence; try reflexivity.
  rewrite Hname in Hfield. discriminate.
Qed.

(** X5. A file posted under any field other than [file] is answered 500
    "Internal server error", however valid the file is; nothing is written
    and the service is not called. *)
Theorem unexpected_field_is_500 env fs0 req file :
  rate_limited env = false ->
  req_file req = Some file ->
  fieldname file <> "file" ->
  responses (trace (serve env fs0 req)) =
    [(500, BJson (Json.error_obj "Internal server error"))]
  /\ posts (trace (serve env fs0 req)) = []
  /\ uploads (serve env fs0 req) = fs0.
Proof.
  intros Hlim Hfile Hname.
  assert (Hother : String.eqb (fieldname file) "file" = false)
    by (apply String.eqb_neq; exact Hname).
  by_route env fs0 req; try one_file; try congruence.
  repeat split.
Qed.

(** A valid request reaches the service once, with its own form. *)
Lemma serve_forwards env fs0 req file q :
  rate_limited env = false ->
  req_file req = Some file ->
  fieldname file = "file" ->
  includes allowedMimes (mimetype file) = true ->
  includes allowedExtensions (toLowerCase (extname (originalname file))) = true ->
  size file < 10 * 1024 * 1024 ->
  req_query req = Some q ->
  q <> "" ->
  exists form,
    posts (trace (serve env fs0 req)) =
      [EvPost (str_or (PYTHON_SERVICE_URL env) "http://localhost:8000"
               +:+ "/generate-graph") form axiosConfig]
    /\ fd_query form = q
    /\ fd_filename form = originalname file
    /\ fd_contentType form = mimetype file
    /\ fd_file form = upload_path env file
    /\ fd_session_id form = uuidv4 env 1.
Proof.
  intros Hlim Hfile Hname Hallowed Hgood Hsize Hquery Hnonempty.
  assert (Hfalsy : falsy_str (req_query req) = false).
  { rewrite Hquery. cbn. apply String.eqb_neq. exact Hnonempty. }
  by_route env fs0 req; try one_file; try congruence;
    try (rewrite Hname in Hfield; discriminate);
    try (destruct Hbad; congruence);
    try (unfold fileSizeLimit in *; lia).
  called env.
  exists (form_of extname dirname env f (req_query req)).
  split; [reflexivity |].
  rewrite Hquery. cbn. repeat split.
Qed.

(** The files the size limit refuses, the one of exactly 10 * 1024 * 1024
    bytes among them. *)
Lemma serve_too_large env fs0 req file :
  rate_limited env = false ->
  req_file req = Some file ->
  fieldname file = "file" ->
  includes allowedMimes (mimetype file) = true ->
  includes allowedExtensions (toLowerCase (extname (originalname file))) = true ->
  10 * 1024 * 1024 <= size file ->
  responses (trace (serve env fs0 req)) =
    [(400, BJson (Json.error_obj "File size too large. Maximum 10MB allowed."))]
  /\ posts (trace (serve env fs0 req)) = [].
Proof.
  intros Hlim Hfile Hname Hallowed Hgood Hsize.
  by_route env fs0 req; try one_file; try congruence;
    try (rewrite Hname in Hfield; discriminate);
    try (destruct Hbad; congruence);
    try (unfold fileSizeLimit in *; lia).
  split; reflexivity.
Qed.

(** X6. A request that is not rate limited, with a file under [file]
    whose type and extension are allowed and whose size is below
    10 * 1024 * 1024 bytes, and with a non-empty query of less than 1 MB,
    is forwarded exactly once: to [PYTHON_SERVICE_URL] (or
    http://localhost:8000) + /generate-graph, with the query as sent, the
    file name and the type as busboy reported them, the stored path and a
    fresh session id. A file of exactly 10 * 1024 * 1024 bytes is not
    forwarded: it is answered 400 "File size too large. Maximum 10MB
    allowed.". *)
Theorem valid_request_forwarded_once env fs0 req file q :
  rate_limited env = false ->
  req_file req = Some file ->
  fieldname file = "file" ->
  includes allowedMimes (mimetype file) = true ->
  includes allowedExtensions (toLowerCase (extname (originalname file))) = true ->
  req_query req = Some q ->
  q <> "" ->
  Z.of_nat (String.length q) < 1024 * 1024 ->
  (size file < 10 * 1024 * 1024 ->
   exists form,
     posts (trace (serve env fs0 req)) =
       [EvPost (str_or (PYTHON_SERVICE_URL env) "http://localhost:8000"
                +:+ "/generate-graph") form axiosConfig]
     /\ fd_query form = q
     /\ fd_filename form = originalname file
     /\ fd_contentType form = mimetype file
     /\ fd_file form = upload_path env file
     /\ fd_session_id form = uuidv4 env 1)
  /\ (size file = 10 * 1024 * 1024 ->
      responses (trace (serve env fs0 req)) =
        [(400, BJson (Json.error_obj "File size too large. Maximum 10MB allowed."))]
      /\ posts (trace (serve env fs0 req)) = []).
Proof.
  intros Hlim Hfile Hname Hallowed Hgood Hquery Hnonempty _. split.
  - intros Hsize. exact (serve_forwards env fs0 req file q Hlim Hfile Hname
                           Hallowed Hgood Hsize Hquery Hnonempty).
  - intros Hsize. apply (serve_too_large env fs0 req file); auto. lia.
Qed.

(** X7. Whatever a request writes or unlinks is its own upload path,
    which lies under the uploads directory. *)
Theorem only_own_upload_written_or_unlinked env fs0 req p :
  In (EvWrite p) (trace (serve env fs0 req))
  \/ In (EvUnlink p) (trace (serve env fs0 req)) ->
  exists file,
    req_file req = Some file
    /\ p = upload_path env file
    /\ String.prefix (uploadsDir dirname +:+ "/") p = true.
Proof.
  destruct (reply_events_shape (python env 0))
    as (_ & _ & Hnowrite & _).
  pose proof (fun q => proj1 (reply_events_no_unlink (python env 0) q)) as Hreply.
  by_route env fs0 req; intros [Hin | Hin];
    unfold removal_early, removal_late in Hin;
    try (destruct (unlink_early env));
    cbn in Hin; try (intuition discriminate).
  all: exists f; split; [exact Hf |].
  all: assert (Hp : p = upload_path env f)
    by (repeat match type of Hin with
               | _ \/ _ => destruct Hin as [Hin | Hin]
               | In _ (_ ++ _) => apply in_app_or in Hin
               end;
        first [ discriminate Hin
              | injection Hin as Hin; symmetry; exact Hin
              | contradiction
              | exfalso; exact (Hnowrite _ Hin)
              | exfalso; exact (Hreply _ Hin)
              | exfalso; cbn in Hin; intuition discriminate ]).
  all: split; [exact Hp |]; rewrite Hp; unfold Gateway.upload_path;
    rewrite <- append_assoc_str; apply prefix_append.
Qed.

(** X8. When the downstream call ends without a response, a refused
    connection is answered 503 "Graph generation service unavailable" and
    every other failure 500 "Failed to start graph generation service". *)
Theorem refused_is_503_other_failures_500 env fs0 req e :
  posts (trace (serve env fs0 req)) <> [] ->
  python env 0 = AxRejected e ->
  ax_response e = None ->
  responses (trace (serve env fs0 req)) =
    [if code_is e "ECONNREFUSED"
     then (503, BJson (Json.error_obj "Graph generation service unavailable"))
     else (500, BJson (Json.error_obj "Failed to start graph generation service"))].
Proof.
  by_route env fs0 req; try called env; intros Hposts Hpy Hresp;
    try (exfalso; apply Hposts; reflexivity).
  rewrite Hpy. cbn [reply_events]. rewrite Hresp.
  destruct (code_is e "ECONNREFUSED"); reflexivity.
Qed.

End GatewayMore.

(** * The handler on its own *)

Section HandlerAlone.

Import Gateway.

(** X9. The handler on its own, given a file that is no longer in the
    uploads directory and a service that would have answered: the form's
    file stream cannot open the file, so the downstream call is rejected
    without a response and the answer is 500 "Failed to start graph
    generation service". The unlink fails as well: the directory is left
    as it was, and "Error deleting uploaded file:" is logged by the
    callback, after the response has been sent. *)
Theorem vanished_upload_answered_500 env w f q st data :
  falsy_str q = false ->
  sf_path f ∉ uploads w ->
  python env (length (posts (trace w))) = AxResolved st data ->
  let w' := run_M (generate_graph (Some f) q) env w in
  uploads w' = uploads w
  /\ responses (trace w') =
       (responses (trace w)
        ++ [(500, BJson (Json.error_obj "Failed to start graph generation service"))])%list
  /\ (forall p, ~ In (EvRemoved p) (trace w) -> ~ In (EvRemoved p) (trace w'))
  /\ exists events,
       trace w' =
         (trace w ++ events
          ++ [EvSend 500 (BJson (Json.error_obj
                                   "Failed to start graph generation service"));
              EvLog [Json.JStr "Error deleting uploaded file:"; Json.JStr "ENOENT"]])%list
       /\ responses events = []
       /\ In (EvUnlink (sf_path f)) events.
Proof.
  intros Hq Habsent _ w'. subst w'.
  unfold run_M, generate_graph. rewrite Hq.
  unfold bind, draw_uuid, console, emit, ask, axios_post.
  cbn [uploads uuids_drawn trace fst snd fd_file].
  destruct (decide (sf_path f ∈ uploads w)) as [Hin | _]; [contradiction |].
  unfold fs_unlink, unlink_done, unlink_run, unlink_callback, bind, emit, ask, ret,
    console, res_json.
  change (ax_response (read_error (sf_path f))) with (@None (Z * Json.value)).
  change (code_is (read_error (sf_path f)) "ECONNREFUSED") with false.
  cbn [uploads uuids_drawn trace fst snd].
  destruct (unlink_early env);
    repeat first
      [ progress cbn [uploads uuids_drawn trace fst snd emit]
      | progress (destruct (decide (sf_path f ∈ uploads w)) as [Hin | _];
                  [contradiction |]) ];
    (split; [reflexivity |]);
    (split; [rewrite !responses_app; cbn; rewrite !app_nil_r; reflexivity |]);
    (split; [intros p Hnone; rewrite !in_app_iff; cbn; intuition discriminate |]);
    eexists [_; _; _; _; _; _];
    (split; [rewrite <- !app_assoc; reflexivity |]);
    (split; [reflexivity | cbn; auto 10]).
Qed.

End HandlerAlone.

(** * More on the client *)

Section ClientMore.

Import Client Views.

Lemma blank_nonempty q : blank q = false -> q <> "".
Proof. intros Hq ->. discriminate Hq. Qed.

Lemma onDrop_selects files file :
  onDrop files = [FileSelect (Some file)] ->
  (exists rest, files = file :: rest) /\ file_size file <= 10 * 1024 * 1024.
Proof.
  unfold onDrop. destruct files as [| first rest]; [discriminate |].
  destruct (10 * 1024 * 1024 <? file_size first) eqn:Hsize; [discriminate |].
  intros Hsel. injection Hsel as ->. apply Z.ltb_ge in Hsize.
  split; [eexists; reflexivity | exact Hsize].
Qed.

(** The file part multer sees in the client's form, when busboy reports
    a file name for it. *)
Lemma formRequest_file file reportedName reportedType q :
  reportedName <> "" ->
  Gateway.req_file (formRequest file reportedName reportedType q) =
    Some {| Gateway.fieldname := "file"; Gateway.originalname := reportedName;
            Gateway.mimetype := reportedType; Gateway.size := file_size file |}.
Proof.
  intros Hnamed. unfold Gateway.req_file, formRequest. cbn.
  destruct (String.eqb reportedName "") eqn:Hempty; [| reflexivity].
  apply String.eqb_eq in Hempty. contradiction.
Qed.

(** X10. A file the drop zone handed to [App] and a query [handleSubmit]
    lets through reach the service when the file has less than
    10 * 1024 * 1024 bytes, the query less than 1 MB, the gateway is not
    rate limiting, and the file name and the type busboy reports for the
    part are on the gateway's allow-lists; the suggestion request for the
    same file reaches it too, with the query "generate suggestions". The
    two size checks do not agree on a file of exactly 10 * 1024 * 1024
    bytes: the drop zone lets it through and the gateway answers 400 "File
    size too large. Maximum 10MB allowed." without calling the service. *)
Theorem dropped_file_reaches_service_below_limit
    (extname : string -> string) (dirname : string) env fs0 files file
    reportedName reportedType q :
  onDrop files = [FileSelect (Some file)] ->
  blank q = false ->
  Z.of_nat (String.length q) < 1024 * 1024 ->
  Gateway.rate_limited env = false ->
  reportedName <> "" ->
  Gateway.includes Gateway.allowedMimes reportedType = true ->
  Gateway.includes Gateway.allowedExtensions
    (toLowerCase (extname reportedName)) = true ->
  (file_size file < 10 * 1024 * 1024 ->
   (exists form,
       Gateway.posts (Gateway.trace (Gateway.serve extname dirname env fs0
                                       (submitRequest file reportedName reportedType q))) =
         [Gateway.EvPost (str_or (Gateway.PYTHON_SERVICE_URL env) "http://localhost:8000"
                          +:+ "/generate-graph") form Gateway.axiosConfig]
       /\ Gateway.fd_query form = q
       /\ Gateway.fd_filename form = reportedName)
   /\ (exists form,
         Gateway.posts (Gateway.trace (Gateway.serve extname dirname env fs0
                                         (suggestionsRequest file reportedName
                                            reportedType))) =
           [Gateway.EvPost (str_or (Gateway.PYTHON_SERVICE_URL env) "http://localhost:8000"
                            +:+ "/generate-graph") form Gateway.axiosConfig]
         /\ Gateway.fd_query form = "generate suggestions"
         /\ Gateway.fd_filename form = reportedName))
  /\ (file_size file = 10 * 1024 * 1024 ->
      Gateway.responses (Gateway.trace (Gateway.serve extname dirname env fs0
                                          (submitRequest file reportedName reportedType q))) =
        [(400, Gateway.BJson (Json.error_obj
                                "File size too large. Maximum 10MB allowed."))]
      /\ Gateway.posts (Gateway.trace (Gateway.serve extname dirname env fs0
                                         (submitRequest file reportedName
                                            reportedType q))) = []).
Proof.
  intros Hdrop Hq _ Hlim Hnamed Hallowed Hext.
  split.
  - intros Hsize. split.
    + destruct (serve_forwards extname dirname env fs0
                  (submitRequest file reportedName reportedType q) _ q
                  Hlim (formRequest_file file reportedName reportedType q Hnamed)
                  eq_refl Hallowed Hext Hsize eq_refl (blank_nonempty q Hq))
        as (form & Hposts & Hquery & Hname & _).
      exists form. auto.
    + destruct (serve_forwards extname dirname env fs0
                  (suggestionsRequest file reportedName reportedType) _
                  "generate suggestions"
                  Hlim (formRequest_file file reportedName reportedType _ Hnamed)
                  eq_refl Hallowed Hext Hsize eq_refl ltac:(discriminate))
        as (form & Hposts & Hquery & Hname & _).
      exists form. auto.
  - intros Hsize.
    apply (serve_too_large extname dirname env fs0
             (submitRequest file reportedName reportedType q) _
             Hlim (formRequest_file file reportedName reportedType q Hnamed)
             eq_refl Hallowed Hext).
    cbn. lia.
Qed.

(** X11. After a failed submit the value handed to [setError] and
    [toast.error] is never falsy. It is the [error] field of the response
    body when that is truthy, of whatever type and wording it is; else
    the error's own message when that is not empty; else the fixed
    default. When the [error] field of the body, if there is one, is a
    string that is empty or not blank, and so is the message, the error
    line is a string that is not blank. *)
Theorem error_line_from_body_message_or_default responseData message :
  Json.truthy (Some (errorMessage responseData message)) = true
  /\ (forall data v,
        responseData = Some data -> Json.get "error" data = Some v ->
        Json.truthy (Some v) = true ->
        errorMessage responseData message = v)
  /\ ((forall data v, responseData = Some data -> Json.get "error" data = Some v ->
                      Json.truthy (Some v) = false) ->
      errorMessage responseData message =
        Json.JStr (if String.eqb message "" then defaultErrorMessage else message))
  /\ ((forall data v, responseData = Some data -> Json.get "error" data = Some v ->
                      exists text, v = Json.JStr text /\ (text = "" \/ blank text = false)) ->
      message = "" \/ blank message = false ->
      exists line, errorMessage responseData message = Json.JStr line
                   /\ blank line = false).
Proof.
  unfold errorMessage. split; [| split; [| split]].
  - destruct responseData as [data |];
      [destruct (Json.get "error" data) as [v |];
       [destruct (Json.truthy (Some v)) eqn:Hv; [exact Hv |] |] |];
      destruct (String.eqb message "") eqn:Hm; cbn; try reflexivity;
      rewrite Hm; reflexivity.
  - intros data v -> Hget Hv. rewrite Hget, Hv. reflexivity.
  - intros Hfalsy. destruct responseData as [data |];
      [destruct (Json.get "error" data) as [v |] eqn:Hget;
       [rewrite (Hfalsy data v eq_refl Hget) |] |];
      destruct (String.eqb message ""); reflexivity.
  - intros Hstring Hmessage.
    assert (Hfallback : exists line,
               (if negb (String.eqb message "") then Json.JStr message
                else Json.JStr defaultErrorMessage) = Json.JStr line
               /\ blank line = false).
    { destruct Hmessage as [-> | Hmessage]; [eexists; split; reflexivity |].
      destruct (String.eqb message "") eqn:Hempty;
        [eexists; split; reflexivity | eexists; split; [reflexivity | exact Hmessage]]. }
    destruct responseData as [data |]; [| exact Hfallback].
    destruct (Json.get "error" data) as [v |] eqn:Hget; [| exact Hfallback].
    destruct (Hstring data v eq_refl Hget) as (text & -> & [-> | Htext]);
      [exact Hfallback |].
    assert (Hnonempty : String.eqb text "" = false)
      by (destruct text; [discriminate Htext | reflexivity]).
    cbn. rewrite Hnonempty. cbn. eexists; split; [reflexivity | exact Htext].
Qed.

(** X12. The error responses the gateway makes up itself, read by the
    catch block of [handleSubmit]: when the gateway is not rate limiting
    and either did not call the service or got no response from it, its
    one response is a 4xx / 5xx with a body [{ error: msg }], and for a
    client that receives this response the error line is [msg], word for
    word. A client whose own call ended without a response (its timeout
    of 60000 ms is shorter than the gateway's) shows the message of its
    own error instead. *)
Theorem gateway_error_body_is_error_line
    (extname : string -> string) (dirname : string) env fs0 req :
  Gateway.rate_limited env = false ->
  Gateway.posts (Gateway.trace (Gateway.serve extname dirname env fs0 req)) = []
  \/ (exists e, Gateway.python env 0 = Gateway.AxRejected e
                /\ Gateway.ax_response e = None) ->
  exists status msg,
    Gateway.responses (Gateway.trace (Gateway.serve extname dirname env fs0 req)) =
      [(status, Gateway.BJson (Json.error_obj msg))]
    /\ 400 <= status <= 599
    /\ (forall message,
          errorMessage (Some (Json.error_obj msg)) message = Json.JStr msg)
    /\ (forall message,
          message <> "" -> errorMessage None message = Json.JStr message)
    /\ submitTimeout < Gateway.timeout Gateway.axiosConfig.
Proof.
  intros Hlim Hcase.
  assert (Hown : forall message,
             message <> "" -> errorMessage None message = Json.JStr message).
  { intros message Hmessage. unfold errorMessage.
    destruct (String.eqb message "") eqn:Hempty; [| reflexivity].
    apply String.eqb_eq in Hempty. contradiction. }
  destruct (serve_route extname dirname env fs0 req)
    as [Hl | Hl Hn | f Hl Hf Hfield | f Hl Hf Hfield Hbad | f Hl Hf Hfield Hmime Hext Hsz
        | f Hl Hf Hfield Hmime Hext Hsz Hq | f Hl Hf Hfield Hmime Hext Hsz Hq];
    cbn [Gateway.trace]; try congruence;
    try (eexists _, _; split; [reflexivity |]; split; [lia |];
         split; [intros message; reflexivity | split; [exact Hown | reflexivity]]).
  destruct (downstream_trace env (Gateway.upload_path extname dirname env f)
              (Gateway.python env 0)
              [Gateway.EvWrite (Gateway.upload_path extname dirname env f);
               Gateway.EvLog [Gateway.processing_line env f (Gateway.req_query req)];
               Gateway.EvLog [Gateway.calling_line env];
               Gateway.EvPost (Gateway.service_url env)
                 (Gateway.form_of extname dirname env f (Gateway.req_query req))
                 Gateway.axiosConfig;
               Gateway.EvUnlink (Gateway.upload_path extname dirname env f)])
    as (Hcalls & Hanswers).
  rewrite Hanswers. cbn [Gateway.trace] in Hcase. rewrite Hcalls in Hcase.
  destruct Hcase as [Hnone | (e & Hpy & Hresp)]; [discriminate Hnone |].
  rewrite Hpy. cbn [Gateway.reply_events]. rewrite Hresp.
  destruct (Gateway.code_is e "ECONNREFUSED");
    eexists _, _; (split; [reflexivity |]); (split; [lia |]);
    (split; [intros message; reflexivity | split; [exact Hown | reflexivity]]).
Qed.

(** X13. [App] never renders a chart together with a clarification card:
    in every reachable state, when [GraphDisplay] shows a chart the
    clarification step is hidden. *)
Theorem chart_excludes_clarification s r :
  reachable s ->
  graphDisplay (graphResult s) (isLoading s) = Chart r ->
  showsClarification s = false /\ r = graphResult s /\ showsGraphStep s = true.
Proof.
  intros Hs Hview. unfold graphDisplay in Hview.
  destruct (isLoading s); [discriminate |].
  destruct (Json.truthy (Some (graphResult s))) eqn:Hgraph; [| discriminate].
  injection Hview as <-.
  unfold showsClarification, showsGraphStep. rewrite Hgraph.
  destruct (reachable_exclusive s Hs) as [Hnull | Hnull].
  - rewrite Hnull in Hgraph. discriminate.
  - rewrite Hnull. auto.
Qed.

(** X14. A submit that runs always ends with [isLoading] false and the
    submitted query recorded, and never changes the selected file. A
    failed request, and an answer that is neither a clarification nor a
    success, leave the results on screen as they were; a clarification
    replaces them by itself, a success by the chart. *)
Theorem submit_settles_state s q file has http :
  blank q = false ->
  let s' := run_actions s (handleSubmit q (Some file) false has http) in
  isLoading s' = false
  /\ query s' = q
  /\ selectedFile s' = selectedFile s
  /\ match http with
     | HttpFailed _ =>
       graphResult s' = graphResult s /\ chatbotResponse s' = chatbotResponse s
     | HttpOk data =>
       if is_chatbot_response data
       then (if has
             then graphResult s' = Json.JNull /\ chatbotResponse s' = data
             else graphResult s' = graphResult s
                  /\ chatbotResponse s' = chatbotResponse s)
       else if Json.truthy (Json.get "success" data)
       then graphResult s' = data /\ chatbotResponse s' = Json.JNull
       else graphResult s' = graphResult s /\ chatbotResponse s' = chatbotResponse s
     end.
Proof.
  intros Hq s'. subst s'. unfold handleSubmit, is_chatbot_response.
  rewrite Hq. cbn [orb negb bool_decide].
  destruct http as [data | msg]; [| cbn; auto].
  destruct (Json.truthy (Json.get "is_chatbot_response" data));
    [destruct has; cbn; auto |].
  destruct (Json.truthy (Json.get "success" data)); cbn; auto.
Qed.


(** X16. The clarification card never shows the data-quality issues and
    the data summary together: a [data_quality] clarification hides the
    summary even when [data_info] is present, and any other clarification
    hides the issues even when they are present. *)
Theorem quality_issues_exclude_data_info response :
  showsQualityIssues response && showsDataInfo response = false
  /\ (Json.get "error_type" response = Some (Json.JStr "data_quality") ->
      showsDataInfo response = false)
  /\ (Json.get "error_type" response <> Some (Json.JStr "data_quality") ->
      showsQualityIssues response = false).
Proof.
  unfold showsQualityIssues, showsDataInfo. split; [| split].
  - destruct (isDataQualityError _), (Json.truthy (Json.get "data_quality_issues" _)),
      (Json.truthy (Json.get "data_info" _)); reflexivity.
  - intros ->. cbn. apply andb_false_r.
  - intros Hother.
    assert (Hnot : isDataQualityError (Json.get "error_type" response) = false).
    { unfold isDataQualityError.
      destruct (Json.get "error_type" response) as [[| | | t | |] |]; try reflexivity.
      destruct (String.eqb t "data_quality") eqn:Ht; [| reflexivity].
      apply String.eqb_eq in Ht. subst t. contradiction. }
    rewrite Hnot. reflexivity.
Qed.

Lemma upper_keeps_underscores c :
  Ascii.eqb (upper_ascii c) "_" = Ascii.eqb c "_".
Proof.
  destruct c as [b0 b1 b2 b3 b4 b5 b6 b7].
  destruct b0, b1, b2, b3, b4, b5, b6, b7; reflexivity.
Qed.

Lemma count_underscores_upper s :
  count_char "_" (toUpperCase s) = count_char "_" s.
Proof.
  induction s as [| c s IH]; [reflexivity |].
  cbn [toUpperCase count_char]. rewrite upper_keeps_underscores, IH. reflexivity.
Qed.

(** X17. The chart-type chip replaces the first underscore only: the
    label of a chart type with n underscores still has n - 1 of them. *)
Theorem chart_label_keeps_later_underscores chart_type :
  count_char "_" (chartLabel chart_type) = Nat.pred (count_char "_" chart_type).
Proof.
  unfold chartLabel. rewrite count_underscores_upper.
  induction chart_type as [| c s IH]; [reflexivity |].
  cbn [replaceFirst count_char].
  destruct (Ascii.eqb c "_") eqn:Hc.
  - cbn [count_char]. reflexivity.
  - cbn [count_char]. rewrite Hc, IH. reflexivity.
Qed.

End ClientMore.

(** * The further properties on sample inputs *)

Section MoreSamples.

Import Gateway Examples MoreExamples.

#[local] Abbreviation node_serve := (Gateway.serve NodePath.extname "/srv/graph-bot/server").
#[local] Abbreviation ok_env := (env_with (AxResolved 200 chart_body)).

Lemma every_request_answered_witness :
  exists status body,
    responses (trace (node_serve ok_env ∅ (request_of txt_part))) = [(status, body)]
    /\ ((rate_limited ok_env = true /\ status = 429 /\ body = BText limiter_message)
        \/ (rate_limited ok_env = false
            /\ (status = 400 \/ status = 500)
            /\ exists msg, body = BJson (Json.error_obj msg))).
Proof.
  destruct (every_request_answered_once NodePath.extname "/srv/graph-bot/server"
              ok_env ∅ (request_of txt_part)) as (status & body & Hresp & Hkind).
  exists status, body. split; [exact Hresp |].
  apply Hkind. vm_compute. reflexivity.
Defined.

Lemma other_uploads_untouched_witness :
  "/srv/graph-bot/server/uploads/earlier.csv"
    ∈ uploads (node_serve ok_env {[ "/srv/graph-bot/server/uploads/earlier.csv" ]}
                 (request_of csv_part))
  <-> "/srv/graph-bot/server/uploads/earlier.csv"
        ∈ ({[ "/srv/graph-bot/server/uploads/earlier.csv" ]} : gset string).
Proof.
  apply (other_uploads_untouched NodePath.extname "/srv/graph-bot/server").
  intros file Hfile. injection Hfile as <-. vm_compute. discriminate.
Defined.

Lemma upload_left_behind_witness :
  responses (trace (node_serve ok_env ∅ no_query_request)) =
    [(400, BJson (Json.error_obj "No query provided"))]
  /\ "/srv/graph-bot/server/uploads/3f2c9d1e.CSV"
       ∈ uploads (node_serve ok_env ∅ no_query_request)
  /\ ~ In (EvUnlink "/srv/graph-bot/server/uploads/3f2c9d1e.CSV")
         (trace (node_serve ok_env ∅ no_query_request))
  /\ ~ In (EvRemoved "/srv/graph-bot/server/uploads/3f2c9d1e.CSV")
         (trace (node_serve ok_env ∅ no_query_request)).
Proof.
  apply (upload_left_behind_without_query NodePath.extname "/srv/graph-bot/server"
           ok_env ∅ no_query_request csv_part);
    [reflexivity | reflexivity | reflexivity | reflexivity | reflexivity
    | left; reflexivity].
Defined.

Lemma disallowed_mime_witness :
  posts (trace (node_serve ok_env ∅ (request_of pdf_typed_part))) = []
  /\ uploads (node_serve ok_env ∅ (request_of pdf_typed_part)) = ∅
  /\ (forall p, ~ In (EvWrite p) (trace (node_serve ok_env ∅ (request_of pdf_typed_part))))
  /\ (rate_limited ok_env = false -> fieldname pdf_typed_part = "file" ->
      (forall q, req_query (request_of pdf_typed_part) = Some q ->
                 Z.of_nat (String.length q) < 1024 * 1024) ->
      trace (node_serve ok_env ∅ (request_of pdf_typed_part)) =
        [EvSend 400 (BJson (Json.error_obj "Only CSV and Excel files are allowed!"))]).
Proof.
  apply (disallowed_mime_rejected NodePath.extname "/srv/graph-bot/server"
           ok_env ∅ (request_of pdf_typed_part) pdf_typed_part);
    reflexivity.
Defined.

Lemma unexpected_field_witness :
  responses (trace (node_serve ok_env ∅ (request_of misnamed_part))) =
    [(500, BJson (Json.error_obj "Internal server error"))]
  /\ posts (trace (node_serve ok_env ∅ (request_of misnamed_part))) = []
  /\ uploads (node_serve ok_env ∅ (request_of misnamed_part)) = ∅.
Proof.
  apply (unexpected_field_is_500 NodePath.extname "/srv/graph-bot/server"
           ok_env ∅ (request_of misnamed_part) misnamed_part);
    [reflexivity | reflexivity | discriminate].
Defined.

Lemma valid_request_forwarded_witness :
  exists form,
    posts (trace (node_serve ok_env ∅ (request_of csv_part))) =
      [EvPost "http://localhost:8000/generate-graph" form axiosConfig]
    /\ fd_query form = bar_query
    /\ fd_filename form = "sales.CSV"
    /\ fd_contentType form = "text/csv"
    /\ fd_file form = "/srv/graph-bot/server/uploads/3f2c9d1e.CSV"
    /\ fd_session_id form = "9b1e07aa".
Proof.
  apply (proj1 (valid_request_forwarded_once NodePath.extname "/srv/graph-bot/server"
                  ok_env ∅ (request_of csv_part) csv_part bar_query
                  eq_refl eq_refl eq_refl eq_refl eq_refl eq_refl
                  ltac:(discriminate) eq_refl)).
  reflexivity.
Defined.

Lemma only_own_upload_witness :
  exists file,
    req_file (request_of huge_part) = Some file
    /\ "/srv/graph-bot/server/uploads/3f2c9d1e.csv"
       = Gateway.upload_path NodePath.extname "/srv/graph-bot/server" ok_env file
    /\ String.prefix (uploadsDir "/srv/graph-bot/server" +:+ "/")
         "/srv/graph-bot/server/uploads/3f2c9d1e.csv" = true.
Proof.
  apply (only_own_upload_written_or_unlinked NodePath.extname "/srv/graph-bot/server"
           ok_env ∅ (request_of huge_part)).
  right. vm_compute. right. left. reflexivity.
Defined.

Lemma refused_is_503_witness :
  responses (trace (node_serve (env_with refused) ∅ (request_of csv_part))) =
    [(503, BJson (Json.error_obj "Graph generation service unavailable"))].
Proof.
  apply (refused_is_503_other_failures_500 NodePath.extname "/srv/graph-bot/server"
           (env_with refused) ∅ (request_of csv_part) refused_error);
    [vm_compute; discriminate | reflexivity | reflexivity].
Defined.

Lemma vanished_upload_witness :
  uploads (run_M (generate_graph (Some stored_csv) (Some bar_query))
             ok_env (init_world ∅)) = ∅
  /\ responses (trace (run_M (generate_graph (Some stored_csv) (Some bar_query))
                         ok_env (init_world ∅))) =
       [(500, BJson (Json.error_obj "Failed to start graph generation service"))].
Proof.
  destruct (vanished_upload_answered_500 ok_env (init_world ∅) stored_csv
              (Some bar_query) 200 chart_body
              eq_refl (not_elem_of_empty _) eq_refl) as (Hdir & Hresp & _).
  split; [exact Hdir | exact Hresp].
Defined.

Lemma dropped_file_witness :
  exists form,
    posts (trace (node_serve ok_env ∅
                    (Views.submitRequest sales_file "sample-data.csv" "text/csv"
                       bar_query))) =
      [EvPost "http://localhost:8000/generate-graph" form axiosConfig]
    /\ fd_query form = bar_query
    /\ fd_filename form = "sample-data.csv".
Proof.
  apply (proj1 (dropped_file_reaches_service_below_limit NodePath.extname
                  "/srv/graph-bot/server" ok_env ∅ [sales_file] sales_file
                  "sample-data.csv" "text/csv" bar_query
                  eq_refl eq_refl eq_refl eq_refl ltac:(discriminate)
                  eq_refl eq_refl)).
  reflexivity.
Defined.

Lemma error_line_witness :
  Views.errorMessage (Some (Json.error_obj "No query provided"))
    "Request failed with status code 400" = Json.JStr "No query provided".
Proof.
  apply (proj1 (proj2 (error_line_from_body_message_or_default
                         (Some (Json.error_obj "No query provided"))
                         "Request failed with status code 400"))
           (Json.error_obj "No query provided"));
    reflexivity.
Defined.

Lemma gateway_error_body_witness :
  exists status msg,
    responses (trace (node_serve (env_with refused) ∅ (request_of csv_part))) =
      [(status, BJson (Json.error_obj msg))]
    /\ 400 <= status <= 599
    /\ (forall message,
          Views.errorMessage (Some (Json.error_obj msg)) message = Json.JStr msg)
    /\ (forall message,
          message <> "" -> Views.errorMessage None message = Json.JStr message)
    /\ Client.submitTimeout < timeout axiosConfig.
Proof.
  apply (gateway_error_body_is_error_line NodePath.extname "/srv/graph-bot/server"
           (env_with refused) ∅ (request_of csv_part));
    [reflexivity | right; exists refused_error; split; reflexivity].
Defined.

Lemma chart_excludes_clarification_witness :
  Views.showsClarification
    (Client.step (Client.step Client.initial (Client.ChatbotResponse clarification_body))
       (Client.GraphGenerated chart_body)) = false.
Proof.
  apply (chart_excludes_clarification
           (Client.step (Client.step Client.initial
                           (Client.ChatbotResponse clarification_body))
              (Client.GraphGenerated chart_body))
           chart_body);
    [apply Client.reach_step, Client.reach_step, Client.reach_initial | reflexivity].
Defined.

Lemma submit_settles_witness :
  Client.isLoading
    (Client.run_actions (Client.step Client.initial (Client.GraphGenerated chart_body))
       (Client.handleSubmit bar_query (Some sales_file) false true
          (Client.HttpFailed "Network Error"))) = false
  /\ Client.graphResult
       (Client.run_actions (Client.step Client.initial (Client.GraphGenerated chart_body))
          (Client.handleSubmit bar_query (Some sales_file) false true
             (Client.HttpFailed "Network Error"))) = chart_body.
Proof.
  destruct (submit_settles_state
              (Client.step Client.initial (Client.GraphGenerated chart_body))
              bar_query sales_file true (Client.HttpFailed "Network Error") eq_refl)
    as (Hloading & _ & _ & Hgraph & _).
  split; [exact Hloading | exact Hgraph].
Defined.


Lemma quality_issues_witness :
  Views.showsDataInfo quality_body = false.
Proof.
  apply (proj1 (proj2 (quality_issues_exclude_data_info quality_body))).
  reflexivity.
Defined.

End MoreSamples.
